(** * useStatic: a static-aware cached fetch primitive (src/static.ts)

    The module keeps one process-wide cache [staticCache] and exports one
    function, [useStatic].  The function is asynchronous: it starts a
    factory call or a network fetch and returns at once, and promise
    callbacks finish the work later.  The embedding is therefore an
    event-driven state machine.  The synchronous code of the source
    ([writeFile], [onFailure], the watch handler, the server branch, the
    promise callbacks) is translated function by function; the host
    (scheduler, network, factory, file system) chooses the events. *)

From Stdlib Require Import ZArith Ascii.
From stdpp Require Import gmap strings list fin_maps.

Local Open Scope string_scope.
Local Open Scope list_scope.
Set Warnings "-register-all".

(** ** JavaScript values *)

(** The values a factory may resolve to, or a JSON body may parse to.
    Numbers are kept as integers plus [VNaN]; that is all truthiness needs. *)
Inductive value : Type :=
| VUndefined
| VNull
| VBool (b : bool)
| VNum (n : Z)
| VNaN
| VStr (s : string)
| VArr (items : list value)
| VObj (fields : list (string * value))
| VCyclic.   (* an object that contains itself, as an HTTP response that
                holds its request; what else it holds does not matter *)

(** ToBoolean, as applied by [if (result.value)] and by [||]. *)
Definition truthy (v : value) : bool :=
  match v with
  | VUndefined | VNull | VNaN => false
  | VBool b => b
  | VNum n => negb (n =? 0)%Z
  | VStr s => match s with EmptyString => false | String _ _ => true end
  | VArr _ | VObj _ | VCyclic => true
  end.

(** What [JSON.stringify] does with a value: it returns a string, returns
    [undefined], or throws. *)
Inductive stringified : Type :=
| Json (s : string)
| JsonUndefined
| JsonThrows (e : value).

(** The second argument [writeFile] is then called with. *)
Definition json_data (j : stringified) : option string :=
  match j with
  | Json s => Some s
  | JsonUndefined | JsonThrows _ => None
  end.

(** ** The host: ambient flags, build-time constants and imported functions *)

Record host : Type := Host {
  (** [process.client] and [process.static] *)
  process_client : bool;
  process_static : bool;
  (** [window[globalContext].$config?.app?.cdnURL]; [None] when undefined *)
  cdnURL : option string;
  (** the build-time constants ['<%= options.publicPath %>'] and
      ['<%= options.staticPath %>'] *)
  options_publicPath : string;
  staticPath : string;
  (** [joinURL] of ufo and [join] of node's path module *)
  joinURL : string -> string -> string;
  path_join : string -> string -> string;
  (** [JSON.stringify] *)
  JSON_stringify : value -> stringified;
  (** [fs.writeFileSync path data]: [None] when the write returns,
      [Some e] when it throws [e] *)
  writeFileSync : string -> option string -> option value;
  (** [ssrRef(dflt, key)] of ./ssr-ref: the value held by the fresh handle
      (the default, or state inlined by the server under that key) *)
  ssrRef : value -> string -> value
}.

(** ** Observable effects and in-flight promises *)

Inductive effect : Type :=
| CallFactory (p k : string)                          (* factory(p, k) *)
| CallFetch (url : string)                            (* fetch(url) *)
| CallWriteFileSync (path : string) (data : option string).

(** A promise that has not settled yet, with what its continuation captured. *)
Inductive task : Type :=
| TFactory (p k : string)    (* client: factory(p, k) started by onFailure *)
| TFetch (k : string)        (* client: fetch chain of the handler run for k *)
| TPrefetch (k p : string).  (* server: the hook awaiting factory(p, k) *)

Record state : Type := State {
  staticCache : gmap string value;   (* module-level cache *)
  result : value;                    (* result.value *)
  param : string;                    (* param.value *)
  watched : option string;           (* key last seen by the watcher *)
  hooked : bool;                     (* an onServerPrefetch hook is registered *)
  pending : list (option task);      (* promises, by order of creation *)
  trace : list effect;               (* calls made so far *)
  disk : gmap string string;         (* files written *)
  console : list value;              (* console.log *)
  uncaught : list value              (* rejections nobody handles here *)
}.

Definition set_cache (k : string) (v : value) (st : state) : state :=
  State (<[k := v]> (staticCache st)) (result st) (param st) (watched st)
        (hooked st) (pending st) (trace st) (disk st) (console st) (uncaught st).

Definition set_result (v : value) (st : state) : state :=
  State (staticCache st) v (param st) (watched st)
        (hooked st) (pending st) (trace st) (disk st) (console st) (uncaught st).

Definition set_param (p : string) (st : state) : state :=
  State (staticCache st) (result st) p (watched st)
        (hooked st) (pending st) (trace st) (disk st) (console st) (uncaught st).

Definition set_watched (w : option string) (st : state) : state :=
  State (staticCache st) (result st) (param st) w
        (hooked st) (pending st) (trace st) (disk st) (console st) (uncaught st).

Definition set_hooked (b : bool) (st : state) : state :=
  State (staticCache st) (result st) (param st) (watched st)
        b (pending st) (trace st) (disk st) (console st) (uncaught st).

(** Performing a call appends it to the trace. *)
Definition perform (e : effect) (st : state) : state :=
  State (staticCache st) (result st) (param st) (watched st)
        (hooked st) (pending st) (trace st ++ [e]) (disk st) (console st) (uncaught st).

(** A new promise gets the next free index. *)
Definition spawn (t : task) (st : state) : state :=
  State (staticCache st) (result st) (param st) (watched st)
        (hooked st) (pending st ++ [Some t]) (trace st) (disk st) (console st) (uncaught st).

(** A promise settles once. *)
Definition retire (i : nat) (st : state) : state :=
  State (staticCache st) (result st) (param st) (watched st)
        (hooked st) (<[i := None]> (pending st)) (trace st) (disk st) (console st) (uncaught st).

Definition write_disk (path data : string) (st : state) : state :=
  State (staticCache st) (result st) (param st) (watched st)
        (hooked st) (pending st) (trace st) (<[path := data]> (disk st)) (console st) (uncaught st).

Definition console_log (e : value) (st : state) : state :=
  State (staticCache st) (result st) (param st) (watched st)
        (hooked st) (pending st) (trace st) (disk st) (console st ++ [e]) (uncaught st).

Definition raise_uncaught (e : value) (st : state) : state :=
  State (staticCache st) (result st) (param st) (watched st)
        (hooked st) (pending st) (trace st) (disk st) (console st) (uncaught st ++ [e]).

(** How a promise of the factory settles, and how a fetch chain ends. *)
Inductive outcome : Type :=
| Resolved (r : value)
| Rejected (e : value).

Inductive response : Type :=
| NetworkError (e : value)   (* fetch itself rejects *)
| NotOk                      (* response.ok is false *)
| BadJson (e : value)        (* response.json() rejects *)
| OkJson (json : value).     (* response.ok, body parsed *)

Inductive event : Type :=
| SetParam (p : string)                  (* the caller assigns param.value *)
| Flush                                  (* the scheduler runs the watcher *)
| FactorySettles (i : nat) (o : outcome)
| FetchSettles (i : nat) (r : response)
| RunPrefetch.                           (* the renderer runs the hook *)

(** The property names every object literal inherits. *)
Definition Object_prototype_names : list string :=
  ["constructor"; "hasOwnProperty"; "isPrototypeOf"; "propertyIsEnumerable";
   "toLocaleString"; "toString"; "valueOf"; "__proto__";
   "__defineGetter__"; "__defineSetter__"; "__lookupGetter__"; "__lookupSetter__"].

Fixpoint has_hyphen (s : string) : bool :=
  match s with
  | EmptyString => false
  | String a s' => Ascii.eqb a "-" || has_hyphen s'
  end.

Section UseStatic.

Variable h : host.
Variable keyBase : string.

(** [computed(() => `${keyBase}-${param.value}`)] *)
Definition key (p : string) : string := keyBase +:+ "-" +:+ p.

(** [key.value], read now. *)
Definition key_value (st : state) : string := key (param st).

(** [cdnURL || '<%= options.publicPath %>'] *)
Definition publicPath : string :=
  match cdnURL h with
  | Some u => if truthy (VStr u) then u else options_publicPath h
  | None => options_publicPath h
  end.

(** [writeFile(key, value)], lines 12-25. *)
Definition writeFile (k : string) (data : option string) (st : state) : state :=
  if process_client h || negb (process_static h) then st
  else
    let path := path_join h (staticPath h) (k +:+ ".json") in
    let st1 := perform (CallWriteFileSync path data) st in
    match writeFileSync h path data with
    | Some e => console_log e st1
    | None =>
        match data with
        | Some s => write_disk path s st1
        | None => st1
        end
    end.

(** [if (result.value) staticCache[key.value] = result.value], line 78. *)
Definition precheck (st : state) : state :=
  if truthy (result st) then set_cache (key_value st) (result st) st else st.

(** [onFailure], lines 84-89: the call [factory(param.value, key.value)];
    its [then] callback is [onFailure_then]. *)
Definition onFailure (st : state) : state :=
  spawn (TFactory (param st) (key_value st))
        (perform (CallFactory (param st) (key_value st)) st).

(** [r => { staticCache[key.value] = r; result.value = r }]: [key] is the
    computed ref of the enclosing scope, read when the callback runs. *)
Definition onFailure_then (r : value) (st : state) : state :=
  set_result r (set_cache (key_value st) r st).

(** [json => { staticCache[key] = json; result.value = json }], lines
    105-108: [key] is the handler's argument. *)
Definition fetch_then (k : string) (json : value) (st : state) : state :=
  set_result json (set_cache k json st).

(** The watch handler, lines 92-111.  [key in staticCache] is a lookup among
    the cache's own entries: the cache is an object literal, and the names
    it inherits ([Object_prototype_names]) are never keys, see
    [key_not_inherited]. *)
Definition watch_cb (k : string) (st : state) : state :=
  match staticCache st !! k with
  | Some v => set_result v st
  | None =>
      if negb (process_static h) then onFailure st
      else spawn (TFetch k)
                 (perform (CallFetch (joinURL h publicPath (k +:+ ".json"))) st)
  end.

(** The body of the prefetch hook up to its [await], lines 122-124. *)
Definition prefetch_hook (st : state) : state :=
  let _key := key_value st in
  let _param := param st in
  spawn (TPrefetch _key _param) (perform (CallFactory _param _key) st).

(** The rest of the hook once the factory has resolved, lines 124-126.  The
    argument [JSON.stringify(result.value)] is evaluated before [writeFile]
    is entered, whatever the build; when it throws, the hook rejects with
    the handle and the cache already set. *)
Definition prefetch_then (_key : string) (r : value) (st : state) : state :=
  let st1 := set_result r st in
  let st2 := set_cache _key (result st1) st1 in
  match JSON_stringify h (result st2) with
  | JsonThrows e => raise_uncaught e st2
  | j => writeFile _key (json_data j) st2
  end.

(** The server branch, lines 117-127. *)
Definition server_setup (st : state) : state :=
  match staticCache st !! key_value st with
  | Some v => set_result v st
  | None => set_hooked true st
  end.

(** The state in which line 78 runs: the cache as found, the handle as
    [ssrRef(null, key.value)] made it, an omitted [param] being [ref('')]. *)
Definition at_call (cache0 : gmap string value) (param_arg : option string) : state :=
  let p := default EmptyString param_arg in
  State cache0 (ssrRef h VNull (key p)) p None false [] [] ∅ [] [].

(** [useStatic(factory, param, keyBase)], lines 70-131, called while the
    module cache is [cache0]. *)
Definition useStatic (cache0 : gmap string value) (param_arg : option string) : state :=
  let st1 := precheck (at_call cache0 param_arg) in
  if process_client h
  then watch_cb (key_value st1) (set_watched (Some (key_value st1)) st1)
  else server_setup st1.

(** One event of the host. *)
Definition step (st : state) (ev : event) : state :=
  match ev with
  | SetParam p => set_param p st
  | Flush =>
      match watched st with
      | Some seen =>
          if String.eqb seen (key_value st) then st
          else watch_cb (key_value st) (set_watched (Some (key_value st)) st)
      | None => st
      end
  | FactorySettles i o =>
      match pending st !! i with
      | Some (Some (TFactory _ _)) =>
          match o with
          | Resolved r => onFailure_then r (retire i st)
          | Rejected e => raise_uncaught e (retire i st)
          end
      | Some (Some (TPrefetch _key _)) =>
          match o with
          | Resolved r => prefetch_then _key r (retire i st)
          | Rejected e => raise_uncaught e (retire i st)
          end
      | _ => st
      end
  | FetchSettles i r =>
      match pending st !! i with
      | Some (Some (TFetch k)) =>
          match r with
          | OkJson json => fetch_then k json (retire i st)
          | NetworkError _ | NotOk | BadJson _ => onFailure (retire i st)
          end
      | _ => st
      end
  | RunPrefetch =>
      if hooked st then prefetch_hook st else st
  end.

Definition run (st : state) (evs : list event) : state := foldl step st evs.

End UseStatic.

(** Which calls of a trace are factory calls, fetches, file writes. *)
Definition is_factory_call (e : effect) : bool :=
  match e with CallFactory _ _ => true | _ => false end.
Definition is_fetch_call (e : effect) : bool :=
  match e with CallFetch _ => true | _ => false end.
Definition is_write_call (e : effect) : bool :=
  match e with CallWriteFileSync _ _ => true | _ => false end.

Definition factory_calls (st : state) : list effect := List.filter is_factory_call (trace st).
Definition fetch_calls (st : state) : list effect := List.filter is_fetch_call (trace st).
Definition write_calls (st : state) : list effect := List.filter is_write_call (trace st).

(** ** A concrete host for the examples *)

Definition dquote : Ascii.ascii := Ascii.ascii_of_nat 34.

Definition demo_stringify (v : value) : stringified :=
  match v with
  | VUndefined => JsonUndefined
  | VNull => Json "null"
  | VBool true => Json "true"
  | VBool false => Json "false"
  | VStr s => Json (String dquote (s +:+ String dquote EmptyString))
  | VNum n => Json (if (n =? 0)%Z then "0" else "1")
  | VNaN => Json "null"
  | VArr _ => Json "[]"
  | VObj _ => Json "{}"
  | VCyclic => JsonThrows (VStr "TypeError: Converting circular structure to JSON")
  end.

(** [joinURL] and [join] put one slash between their arguments here. *)
Definition demo_join (a b : string) : string := a +:+ "/" +:+ b.

(** A file system that accepts every string and refuses [undefined]. *)
Definition demo_fs_ok (path : string) (data : option string) : option value :=
  match data with
  | Some _ => None
  | None => Some (VStr "ERR_INVALID_ARG_TYPE")
  end.

(** A file system on which every write throws. *)
Definition demo_fs_readonly (path : string) (data : option string) : option value :=
  Some (VStr "EACCES").

(** No state was inlined by the server: the handle starts as the default. *)
Definition demo_ssrRef_blank (dflt : value) (k : string) : value := dflt.

Definition demo_host (client static : bool) : host :=
  Host client static None "/_nuxt" "dist/static"
       demo_join demo_join demo_stringify demo_fs_ok demo_ssrRef_blank.

Definition demo_host_readonly : host :=
  Host false true None "/_nuxt" "dist/static"
       demo_join demo_join demo_stringify demo_fs_readonly demo_ssrRef_blank.

(** The server inlined [v] for every key. *)
Definition demo_host_hydrated (v : value) : host :=
  Host true false None "/_nuxt" "dist/static"
       demo_join demo_join demo_stringify demo_fs_ok (fun _ _ => v).

Definition title (s : string) : value := VObj [("title", VStr s)].

(** The fetch chain ends in its [catch] for every response but an ok one
    with a parsable body. *)
Definition fetch_failed (r : response) : bool :=
  match r with
  | OkJson _ => false
  | NetworkError _ | NotOk | BadJson _ => true
  end.

(** The promises that come from the factory. *)
Definition factory_task (t : task) : bool :=
  match t with
  | TFactory _ _ | TPrefetch _ _ => true
  | TFetch _ => false
  end.

(** ** States used by the examples *)

(** A client state between events: handle [r], parameter [p], the watcher
    having last seen the key of [p]. *)
Definition client_state (kb : string) (c : gmap string value) (r : value) (p : string) : state :=
  State c r p (Some (key kb p)) false [] [] ∅ [] [].


(** The uninterrupted, successful first resolution that follows a call of
    [useStatic]: the one promise the call started resolves to [r] (on the
    server the renderer first runs the hook). *)
Definition resolve_events (h : host) (r : value) : list event :=
  if process_client h then
    if process_static h then [FetchSettles 0 (OkJson r)]
    else [FactorySettles 0 (Resolved r)]
  else [RunPrefetch; FactorySettles 0 (Resolved r)].

(** A call neither invoked the factory, nor fetched, nor left work behind. *)
Definition silent (st : state) : Prop :=
  trace st = [] ∧ pending st = [] ∧ hooked st = false.

(** ** Notions used by the invariants of runs *)

(** Events that bring a value: a resolved factory promise, an ok fetch. *)
Definition delivers (ev : event) : bool :=
  match ev with
  | FactorySettles _ (Resolved _) | FetchSettles _ (OkJson _) => true
  | _ => false
  end.

(** Events by which the factory rejects. *)
Definition rejects (ev : event) : bool :=
  match ev with
  | FactorySettles _ (Rejected _) => true
  | _ => false
  end.

(** The event is not a resolution of the factory to a value on which
    [JSON.stringify] throws. *)
Definition serialisable (h : host) (ev : event) : Prop :=
  match ev with
  | FactorySettles _ (Resolved r) => ∀ e, JSON_stringify h r ≠ JsonThrows e
  | _ => True
  end.

(** What an event brings satisfies [P]. *)
Definition brings (P : value → Prop) (ev : event) : Prop :=
  match ev with
  | FactorySettles _ (Resolved r) => P r
  | FetchSettles _ (OkJson json) => P json
  | _ => True
  end.

(** What a call made by this module looks like: the factory gets a
    parameter and the key of that parameter; a fetch is made in a static
    build, for the artifact of some key; a file is written on the server in
    a static build, to the artifact of some key. *)
Definition call_ok (h : host) (keyBase : string) (e : effect) : Prop :=
  match e with
  | CallFactory p k => k = key keyBase p
  | CallFetch url =>
      process_static h = true
      ∧ ∃ p, url = joinURL h (publicPath h) (key keyBase p +:+ ".json")
  | CallWriteFileSync path data =>
      process_client h = false ∧ process_static h = true
      ∧ ∃ p, path = path_join h (staticPath h) (key keyBase p +:+ ".json")
  end.

(** What a pending promise has captured: keys of this call site. *)
Definition task_ok (keyBase : string) (ot : option task) : Prop :=
  match ot with
  | Some (TFactory p k) | Some (TPrefetch k p) => k = key keyBase p
  | Some (TFetch k) => ∃ p, k = key keyBase p
  | None => True
  end.

(** Runs of the prefetch hook among some events. *)
Definition is_hook_run (ev : event) : bool :=
  match ev with RunPrefetch => true | _ => false end.

Definition hook_runs (evs : list event) : nat :=
  length (List.filter is_hook_run evs).

(** Promises that have not settled. *)
Definition is_live (ot : option task) : bool :=
  match ot with Some _ => true | None => false end.

Definition live (l : list (option task)) : nat := length (List.filter is_live l).

(** A promise of the server side: the hook's, or a settled one. *)
Definition awaits_hook (ot : option task) : Prop :=
  match ot with
  | Some (TPrefetch _ _) | None => True
  | Some (TFactory _ _) | Some (TFetch _) => False
  end.

(** What holds of a call of [useStatic] on the server after [n] factory
    calls: no watcher, only promises of the hook, no fetch, and a file write
    or a pending promise for each factory call at most. *)
Definition server_inv (st : state) (n : nat) : Prop :=
  watched st = None
  ∧ Forall awaits_hook (pending st)
  ∧ fetch_calls st = []
  ∧ length (factory_calls st) = n
  ∧ (length (write_calls st) + live (pending st) ≤ n)%nat.

(** ** Basic facts about the handlers *)

Section Facts.

Variable h : host.
Variable keyBase : string.

Lemma watch_cb_hit (st : state) (k : string) (v : value) :
  staticCache st !! k = Some v → watch_cb h keyBase k st = set_result v st.
Proof. intros Hhit. unfold watch_cb. now rewrite Hhit. Qed.

Lemma server_setup_hit (st : state) (v : value) :
  staticCache st !! key_value keyBase st = Some v →
  server_setup keyBase st = set_result v st.
Proof. intros Hhit. unfold server_setup. now rewrite Hhit. Qed.

Lemma watch_cb_miss_dynamic (st : state) (k : string) :
  staticCache st !! k = None → process_static h = false →
  watch_cb h keyBase k st = onFailure keyBase st.
Proof. intros Hmiss Hdyn. unfold watch_cb. now rewrite Hmiss, Hdyn. Qed.

Lemma watch_cb_miss_static (st : state) (k : string) :
  staticCache st !! k = None → process_static h = true →
  watch_cb h keyBase k st =
  spawn (TFetch k)
    (perform (CallFetch (joinURL h (publicPath h) (k +:+ ".json"))) st).
Proof. intros Hmiss Hst. unfold watch_cb. now rewrite Hmiss, Hst. Qed.

(** [writeFile] touches neither the cache nor the handle. *)
Lemma writeFile_frame (k : string) (data : option string) (st : state) :
  staticCache (writeFile h k data st) = staticCache st
  ∧ result (writeFile h k data st) = result st
  ∧ param (writeFile h k data st) = param st
  ∧ pending (writeFile h k data st) = pending st
  ∧ uncaught (writeFile h k data st) = uncaught st.
Proof.
  unfold writeFile.
  destruct (process_client h || negb (process_static h)); [easy|].
  destruct (writeFileSync h _ data); [easy|].
  now destruct data.
Qed.

(** The continuation of the hook sets handle and cache entry, whatever
    becomes of the serialisation and of the write. *)
Lemma prefetch_then_frame (k : string) (r : value) (st : state) :
  staticCache (prefetch_then h k r st) = <[k := r]> (staticCache st)
  ∧ result (prefetch_then h k r st) = r
  ∧ param (prefetch_then h k r st) = param st
  ∧ pending (prefetch_then h k r st) = pending st.
Proof.
  unfold prefetch_then; cbv zeta.
  destruct (JSON_stringify h _) as [s | | e]; simpl;
    try (destruct (writeFile_frame k (Some s) (set_cache k r (set_result r st)))
           as (-> & -> & -> & -> & _); easy);
    try (destruct (writeFile_frame k None (set_cache k r (set_result r st)))
           as (-> & -> & -> & -> & _); easy);
    easy.
Qed.

(** No event removes a key from the cache. *)
Lemma step_keeps_cached (st : state) (ev : event) (k : string) :
  is_Some (staticCache st !! k) →
  is_Some (staticCache (step h keyBase st ev) !! k).
Proof.
  intros Hk.
  assert (Hins : ∀ k' v', is_Some (<[k' := v']> (staticCache st) !! k)).
  { intros k' v'. rewrite lookup_insert_is_Some.
    destruct (decide (k' = k)); [now left | now right]. }
  destruct ev as [p | | i o | i r | ]; simpl.
  - exact Hk.
  - destruct (watched st) as [seen|]; [|exact Hk].
    destruct (String.eqb seen (key_value keyBase st)); [exact Hk|].
    unfold watch_cb; simpl.
    destruct (staticCache st !! key_value keyBase st); [exact Hk|].
    destruct (negb (process_static h)); exact Hk.
  - destruct (pending st !! i) as [[[p k0 | k0 | k0 p]|]|]; try exact Hk.
    + destruct o; [apply Hins | exact Hk].
    + destruct o; [|exact Hk].
      rewrite (proj1 (prefetch_then_frame _ _ _)). apply Hins.
  - destruct (pending st !! i) as [[[p k0 | k0 | k0 p]|]|]; try exact Hk.
    destruct r; try exact Hk. apply Hins.
  - destruct (hooked st); exact Hk.
Qed.

Lemma run_keeps_cached (evs : list event) (st : state) (k : string) :
  is_Some (staticCache st !! k) →
  is_Some (staticCache (run h keyBase st evs) !! k).
Proof.
  revert st. induction evs as [|ev evs IH]; intros st Hk; [exact Hk|].
  simpl. apply IH. now apply step_keeps_cached.
Qed.

(** A call of [useStatic] that finds its key cached, or seeds it from the
    handle, returns with the handle holding the cached value and nothing
    started. *)
Lemma useStatic_hit (c : gmap string value) (parg : option string) :
  is_Some (c !! key keyBase (default EmptyString parg)) →
  let st := useStatic h keyBase c parg in
  silent st
  ∧ staticCache st !! key keyBase (default EmptyString parg) = Some (result st).
Proof.
  intros [v Hv]. unfold useStatic, at_call, precheck, silent. simpl.
  destruct (truthy (ssrRef h VNull (key keyBase (default EmptyString parg)))) eqn:Ht;
    destruct (process_client h); unfold watch_cb, server_setup, key_value; simpl;
    rewrite ?lookup_insert_eq, ?Hv; simpl; rewrite ?lookup_insert_eq, ?Hv; auto.
Qed.

(** A call of [useStatic] with a falsy handle and its key absent goes
    straight to the miss branch of its side. *)
Lemma useStatic_miss (c : gmap string value) (parg : option string) :
  truthy (ssrRef h VNull (key keyBase (default EmptyString parg))) = false →
  c !! key keyBase (default EmptyString parg) = None →
  useStatic h keyBase c parg
  = if process_client h
    then watch_cb h keyBase (key keyBase (default EmptyString parg))
           (set_watched (Some (key keyBase (default EmptyString parg)))
              (at_call h keyBase c parg))
    else set_hooked true (at_call h keyBase c parg).
Proof.
  intros Hf Hc. unfold useStatic, precheck, at_call, key_value; simpl.
  rewrite Hf. destruct (process_client h); [reflexivity|].
  unfold server_setup, key_value; simpl. now rewrite Hc.
Qed.

End Facts.

Section FirstResolution.

Variable h : host.
Variable keyBase : string.

(** After a call of [useStatic] and its uninterrupted successful resolution
    the key of the call is cached. *)
Lemma first_resolution_populates (c : gmap string value) (parg : option string) (r : value) :
  is_Some (staticCache (run h keyBase (useStatic h keyBase c parg) (resolve_events h r))
             !! key keyBase (default EmptyString parg)).
Proof.
  set (k := key keyBase (default EmptyString parg)).
  destruct (c !! k) as [v|] eqn:Hc.
  { apply run_keeps_cached.
    destruct (useStatic_hit h keyBase c parg) as [_ Heq]; [now exists v|].
    eexists. exact Heq. }
  unfold useStatic, at_call, precheck, resolve_events; simpl. fold k.
  destruct (truthy (ssrRef h VNull k)) eqn:Ht.
  - apply run_keeps_cached.
    destruct (process_client h); unfold watch_cb, server_setup, key_value; simpl;
      fold k; rewrite lookup_insert_eq; simpl; rewrite lookup_insert_eq; easy.
  - destruct (process_client h) eqn:Hcl.
    + unfold watch_cb, key_value; simpl; fold k. rewrite Hc.
      destruct (process_static h) eqn:Hst; simpl.
      * unfold key_value; simpl. rewrite lookup_insert_eq. easy.
      * unfold key_value; simpl. fold k. rewrite lookup_insert_eq. easy.
    + unfold server_setup, key_value; simpl; fold k. rewrite Hc. simpl.
      rewrite (proj1 (prefetch_then_frame _ _ _ _)). unfold key_value; simpl. fold k.
      rewrite lookup_insert_eq. easy.
Qed.

End FirstResolution.

(** * Cache hits *)

(** C1.  Whenever the key is in the cache at the moment the watch handler
    runs (client) or the server branch tests it, the handle receives exactly
    the cached value and nothing else changes: no factory call, no fetch, no
    new promise, no hook.  A key once cached stays cached through every
    later event, so every later resolution of it is such a hit; in
    particular a second call of [useStatic] for the same key, made after the
    first call and its resolution, starts nothing. *)
Theorem cache_hit_skips_factory_and_network (h : host) (keyBase : string) :
  (∀ (st : state) (k : string) (v : value),
      staticCache st !! k = Some v →
      watch_cb h keyBase k st = set_result v st
      ∧ result (watch_cb h keyBase k st) = v
      ∧ trace (watch_cb h keyBase k st) = trace st
      ∧ pending (watch_cb h keyBase k st) = pending st)
  ∧ (∀ (st : state) (v : value),
      staticCache st !! key_value keyBase st = Some v →
      server_setup keyBase st = set_result v st
      ∧ result (server_setup keyBase st) = v
      ∧ trace (server_setup keyBase st) = trace st
      ∧ hooked (server_setup keyBase st) = hooked st)
  ∧ (∀ (c : gmap string value) (parg : option string) (v : value),
      c !! key keyBase (default EmptyString parg) = Some v →
      silent (useStatic h keyBase c parg)
      ∧ (truthy (ssrRef h VNull (key keyBase (default EmptyString parg))) = false →
         result (useStatic h keyBase c parg) = v
         ∧ staticCache (useStatic h keyBase c parg) = c))
  ∧ (∀ (st : state) (k : string) (evs : list event),
      is_Some (staticCache st !! k) →
      ∃ v', staticCache (run h keyBase st evs) !! k = Some v'
            ∧ watch_cb h keyBase k (run h keyBase st evs)
              = set_result v' (run h keyBase st evs))
  ∧ (∀ (c : gmap string value) (parg : option string) (r : value),
      let st2 := run h keyBase (useStatic h keyBase c parg) (resolve_events h r) in
      let st3 := useStatic h keyBase (staticCache st2) parg in
      silent st3
      ∧ factory_calls st3 = [] ∧ fetch_calls st3 = []
      ∧ staticCache st3 !! key keyBase (default EmptyString parg) = Some (result st3)).
Proof.
  repeat split.
  - now apply watch_cb_hit.
  - now rewrite (watch_cb_hit h keyBase st k v).
  - now rewrite (watch_cb_hit h keyBase st k v).
  - now rewrite (watch_cb_hit h keyBase st k v).
  - now apply server_setup_hit.
  - now rewrite (server_setup_hit keyBase st v).
  - now rewrite (server_setup_hit keyBase st v).
  - now rewrite (server_setup_hit keyBase st v).
  - apply (useStatic_hit h keyBase c parg). now exists v.
  - apply (useStatic_hit h keyBase c parg). now exists v.
  - apply (useStatic_hit h keyBase c parg). now exists v.
  - unfold useStatic, at_call, precheck; simpl. rewrite H0.
    destruct (process_client h); unfold watch_cb, server_setup, key_value; simpl;
      now rewrite H.
  - unfold useStatic, at_call, precheck; simpl. rewrite H0.
    destruct (process_client h); unfold watch_cb, server_setup, key_value; simpl;
      now rewrite H.
  - intros st k evs Hk.
    destruct (run_keeps_cached h keyBase evs st k Hk) as [v' Hv'].
    exists v'. split; [exact Hv' | now apply watch_cb_hit].
  - apply useStatic_hit, first_resolution_populates.
  - apply useStatic_hit, first_resolution_populates.
  - apply useStatic_hit, first_resolution_populates.
  - unfold factory_calls.
    now rewrite (proj1 (proj1 (useStatic_hit h keyBase _ parg
                   (first_resolution_populates h keyBase c parg r)))).
  - unfold fetch_calls.
    now rewrite (proj1 (proj1 (useStatic_hit h keyBase _ parg
                   (first_resolution_populates h keyBase c parg r)))).
  - apply useStatic_hit, first_resolution_populates.
Qed.

(** The second scenario of the specification: [post-42] is cached as
    [{title: "B"}]; the handler sets the handle to it and calls nothing. *)
Lemma cache_hit_skips_factory_and_network_witness :
  let st := client_state "post" {[ "post-42" := title "B" ]} VNull "42" in
  staticCache st !! "post-42" = Some (title "B")
  ∧ result (watch_cb (demo_host true false) "post" "post-42" st) = title "B"
  ∧ trace (watch_cb (demo_host true false) "post" "post-42" st) = [].
Proof.
  intros st. split; [reflexivity|].
  destruct (proj1 (cache_hit_skips_factory_and_network (demo_host true false) "post")
              st "post-42" (title "B") eq_refl) as (_ & Hres & Htr & _).
  split; [exact Hres | exact Htr].
Defined.

(** * Cache misses on the client *)

(** C2.  In a static build, a handler run that misses the cache performs
    exactly one call, the fetch of [joinURL(publicPath, k + ".json")], and
    changes neither cache nor handle.  Whenever that fetch later ends ok,
    its body goes to the cache under [k] and to the handle, with no further
    call.  Whenever it ends in a network error, a non-ok response or a parse
    error, exactly one call follows, the factory with the parameter and key
    current at that moment, and nothing reaches the uncaught rejections or
    the console.  The chain settles once. *)
Theorem static_miss_fetches_then_falls_back (h : host) (keyBase : string)
    (st : state) (k : string)
    (Hstatic : process_static h = true)
    (Hmiss : staticCache st !! k = None) :
  let st1 := watch_cb h keyBase k st in
  let i := length (pending st) in
  trace st1 = trace st ++ [CallFetch (joinURL h (publicPath h) (k +:+ ".json"))]
  ∧ pending st1 = pending st ++ [Some (TFetch k)]
  ∧ pending st1 !! i = Some (Some (TFetch k))
  ∧ staticCache st1 = staticCache st
  ∧ result st1 = result st
  ∧ (∀ (st2 : state) (j : nat) (json : value),
        pending st2 !! j = Some (Some (TFetch k)) →
        let st3 := step h keyBase st2 (FetchSettles j (OkJson json)) in
        staticCache st3 = <[k := json]> (staticCache st2)
        ∧ result st3 = json
        ∧ trace st3 = trace st2
        ∧ uncaught st3 = uncaught st2)
  ∧ (∀ (st2 : state) (j : nat) (r : response),
        pending st2 !! j = Some (Some (TFetch k)) →
        fetch_failed r = true →
        let st3 := step h keyBase st2 (FetchSettles j r) in
        trace st3 = trace st2 ++ [CallFactory (param st2) (key_value keyBase st2)]
        ∧ pending st3 = <[j := None]> (pending st2)
                        ++ [Some (TFactory (param st2) (key_value keyBase st2))]
        ∧ uncaught st3 = uncaught st2
        ∧ console st3 = console st2
        ∧ staticCache st3 = staticCache st2
        ∧ result st3 = result st2)
  ∧ (∀ (st2 : state) (j : nat) (r r' : response),
        pending st2 !! j = Some (Some (TFetch k)) →
        let st3 := step h keyBase st2 (FetchSettles j r) in
        step h keyBase st3 (FetchSettles j r') = st3)
  ∧ (∀ (c : gmap string value) (parg : option string),
        let k0 := key keyBase (default EmptyString parg) in
        process_client h = true →
        truthy (ssrRef h VNull k0) = false →
        c !! k0 = None →
        trace (useStatic h keyBase c parg)
        = [CallFetch (joinURL h (publicPath h) (k0 +:+ ".json"))]
        ∧ pending (useStatic h keyBase c parg) = [Some (TFetch k0)]).
Proof.
  cbv zeta. rewrite (watch_cb_miss_static h keyBase st k Hmiss Hstatic). simpl.
  split; [reflexivity|]. split; [reflexivity|].
  split; [rewrite lookup_app_r by lia; now rewrite Nat.sub_diag|].
  split; [reflexivity|]. split; [reflexivity|].
  split; [|split; [|split]].
  - intros st2 j json Hj. simpl. now rewrite Hj.
  - intros st2 j r Hj Hr. simpl. rewrite Hj.
    destruct r; [easy | easy | easy | discriminate Hr].
  - intros st2 j r r' Hj.
    assert (Hlt : j < length (pending st2)) by (eapply lookup_lt_Some; exact Hj).
    assert (Hgone : ∀ t, (<[j := None]> (pending st2) ++ t) !! j = Some None).
    { intros t. rewrite lookup_app_l by (now rewrite length_insert).
      now apply list_lookup_insert_eq. }
    simpl. rewrite Hj.
    destruct r; simpl; rewrite ?Hgone; try reflexivity.
    now rewrite list_lookup_insert_eq.
  - intros c parg Hcl Hf Hc.
    rewrite (useStatic_miss h keyBase c parg Hf Hc), Hcl.
    rewrite watch_cb_miss_static by easy. easy.
Qed.

(** A static client build, empty cache, parameter [42]: the call fetches
    [/_nuxt/post-42.json] once; a 404 makes it call the factory once. *)
Lemma static_miss_fetches_then_falls_back_witness :
  let h := demo_host true true in
  let st := client_state "post" ∅ VNull "42" in
  (process_static h = true ∧ staticCache st !! "post-42" = None)
  ∧ trace (watch_cb h "post" "post-42" st) = [CallFetch "/_nuxt/post-42.json"]
  ∧ trace (step h "post" (watch_cb h "post" "post-42" st) (FetchSettles 0 NotOk))
    = [CallFetch "/_nuxt/post-42.json"; CallFactory "42" "post-42"].
Proof.
  intros h st. split; [split; reflexivity|].
  destruct (static_miss_fetches_then_falls_back h "post" st "post-42" eq_refl eq_refl)
    as (Htr & _ & Hpend & _ & _ & _ & Hfail & _).
  split; [exact Htr|].
  destruct (Hfail (watch_cb h "post" "post-42" st) 0 NotOk Hpend eq_refl) as (Htr' & _).
  exact Htr'.
Defined.

(** What holds of a miss outside a static build.  A handler run for the
    current key that misses the cache performs exactly one call, the factory
    with the current parameter and key.  When that promise resolves while
    the key is still current, the value goes to the cache under that key and
    to the handle, with no further call.  (When the parameter has changed
    meanwhile it does not, as the example after this theorem shows.) *)
Theorem dynamic_miss_calls_factory_once (h : host) (keyBase : string)
    (st : state)
    (Hdynamic : process_static h = false)
    (Hmiss : staticCache st !! key_value keyBase st = None) :
  let k := key_value keyBase st in
  let st1 := watch_cb h keyBase k st in
  let i := length (pending st) in
  trace st1 = trace st ++ [CallFactory (param st) k]
  ∧ pending st1 = pending st ++ [Some (TFactory (param st) k)]
  ∧ staticCache st1 = staticCache st
  ∧ result st1 = result st
  ∧ (∀ r : value,
        let st2 := step h keyBase st1 (FactorySettles i (Resolved r)) in
        staticCache st2 = <[k := r]> (staticCache st)
        ∧ staticCache st2 !! k = Some r
        ∧ result st2 = r
        ∧ trace st2 = trace st1
        ∧ uncaught st2 = uncaught st)
  ∧ (∀ (st' : state) (j : nat) (r : value),
        pending st' !! j = Some (Some (TFactory (param st) k)) →
        key_value keyBase st' = k →
        let st2 := step h keyBase st' (FactorySettles j (Resolved r)) in
        staticCache st2 = <[k := r]> (staticCache st')
        ∧ result st2 = r
        ∧ trace st2 = trace st')
  ∧ (∀ (c : gmap string value) (parg : option string),
        let p0 := default EmptyString parg in
        process_client h = true →
        truthy (ssrRef h VNull (key keyBase p0)) = false →
        c !! key keyBase p0 = None →
        trace (useStatic h keyBase c parg) = [CallFactory p0 (key keyBase p0)]
        ∧ pending (useStatic h keyBase c parg) = [Some (TFactory p0 (key keyBase p0))]).
Proof.
  cbv zeta. rewrite (watch_cb_miss_dynamic h keyBase st _ Hmiss Hdynamic).
  assert (Hi : (pending st ++ [Some (TFactory (param st) (key_value keyBase st))])
               !! length (pending st)
               = Some (Some (TFactory (param st) (key_value keyBase st)))).
  { rewrite lookup_app_r by lia. now rewrite Nat.sub_diag. }
  split; [reflexivity|]. split; [reflexivity|].
  split; [reflexivity|]. split; [reflexivity|].
  split; [|split].
  - intros r. simpl. rewrite Hi. simpl.
    split; [reflexivity|]. split; [apply lookup_insert_eq | easy].
  - intros st' j r Hj Hk. simpl. rewrite Hj. simpl.
    unfold key_value in *. simpl. now rewrite Hk.
  - intros c parg Hcl Hf Hc.
    rewrite (useStatic_miss h keyBase c parg Hf Hc), Hcl.
    rewrite watch_cb_miss_dynamic by easy. easy.
Qed.

(** C3.  Client, no static build, key base [post], empty cache, parameter
    [42]: the miss calls the factory with [("42", "post-42")].  The
    parameter becomes [43] before that promise resolves to [{title: "A"}].
    The value is not stored under [post-42], the key the factory was called
    with: it is stored under [post-43], and [post-42] has no entry. *)
Example factory_result_stored_under_later_key :
  let h := demo_host true false in
  let st := run h "post" (useStatic h "post" ∅ (Some "42"))
                [SetParam "43"; FactorySettles 0 (Resolved (title "A"))] in
  trace st = [CallFactory "42" "post-42"]
  ∧ staticCache st !! "post-42" = None
  ∧ staticCache st !! "post-43" = Some (title "A")
  ∧ result st = title "A".
Proof. vm_compute. repeat split. Qed.

(** The first scenario of the specification: key base [post], parameter
    [42], empty cache, client, no static build.  The factory is called with
    [("42", "post-42")]; its value [{title: "A"}] ends up in the handle and
    as the cache entry of [post-42]. *)
Lemma dynamic_miss_calls_factory_once_witness :
  let h := demo_host true false in
  let st0 := useStatic h "post" ∅ (Some "42") in
  let st2 := step h "post" st0 (FactorySettles 0 (Resolved (title "A"))) in
  trace st0 = [CallFactory "42" "post-42"]
  ∧ staticCache st2 !! "post-42" = Some (title "A")
  ∧ result st2 = title "A"
  ∧ trace st2 = [CallFactory "42" "post-42"].
Proof.
  intros h st0 st2.
  assert (Hdynamic : process_static h = false) by reflexivity.
  assert (Hmiss : staticCache (client_state "post" ∅ VNull "42")
                    !! key_value "post" (client_state "post" ∅ VNull "42") = None)
    by reflexivity.
  destruct (dynamic_miss_calls_factory_once h "post"
              (client_state "post" ∅ VNull "42") Hdynamic Hmiss)
    as (Htr & _ & _ & _ & Hres & _).
  destruct (Hres (title "A")) as (_ & Hc & Hr & Htr2 & _).
  split; [exact Htr|].
  split; [exact Hc|].
  split; [exact Hr|].
  exact (eq_trans Htr2 Htr).
Defined.

(** * The server *)



(** * Failures *)

(** C7.  When the factory's promise rejects, on the client as on the
    server, the rejection value is handed on as it is, and nothing else
    happens: no call is made (so no retry), no promise is created, and the
    handle, the cache and the console stay as they were.  After a call that
    started with a null handle and no entry for its key, a rejection leaves
    the handle null and the key absent. *)
Theorem factory_rejection_propagates (h : host) (keyBase : string)
    (st : state) (j : nat) (t : task) (e : value)
    (Hpending : pending st !! j = Some (Some t))
    (Hfactory : factory_task t = true) :
  let st' := step h keyBase st (FactorySettles j (Rejected e)) in
  uncaught st' = uncaught st ++ [e]
  ∧ trace st' = trace st
  ∧ pending st' = <[j := None]> (pending st)
  ∧ result st' = result st
  ∧ staticCache st' = staticCache st
  ∧ console st' = console st
  ∧ disk st' = disk st
  ∧ (∀ o, step h keyBase st' (FactorySettles j o) = st')
  ∧ (result st = VNull → result st' = VNull)
  ∧ (∀ k, staticCache st !! k = None → staticCache st' !! k = None).
Proof.
  cbv zeta.
  assert (Hgone : <[j := None]> (pending st) !! j = Some None).
  { apply list_lookup_insert_eq. eapply lookup_lt_Some. exact Hpending. }
  destruct t as [p k | k | k p]; [| discriminate Hfactory |];
    simpl; rewrite Hpending; simpl; rewrite Hgone; repeat split; auto.
Qed.

(** Client, no static build, empty cache: the factory rejects with
    [boom]; the handle is still null and [post-42] is still absent. *)
Lemma factory_rejection_propagates_witness :
  let h := demo_host true false in
  let st := useStatic h "post" ∅ (Some "42") in
  let st' := step h "post" st (FactorySettles 0 (Rejected (VStr "boom"))) in
  pending st !! 0 = Some (Some (TFactory "42" "post-42"))
  ∧ uncaught st' = [VStr "boom"]
  ∧ trace st' = [CallFactory "42" "post-42"]
  ∧ result st' = VNull
  ∧ staticCache st' !! "post-42" = None.
Proof.
  intros h st st'.
  assert (Hp : pending st !! 0 = Some (Some (TFactory "42" "post-42"))) by reflexivity.
  assert (Hf : factory_task (TFactory "42" "post-42") = true) by reflexivity.
  destruct (factory_rejection_propagates h "post" st 0 _ (VStr "boom") Hp Hf)
    as (Hu & Htr & _ & _ & _ & _ & _ & _ & Hnull & Habsent).
  split; [exact Hp|].
  split; [exact Hu|].
  split; [exact Htr|].
  split; [exact (Hnull eq_refl)|].
  apply Habsent. reflexivity.
Defined.

Lemma step_prefetch_resolved (h : host) (keyBase : string)
    (st : state) (j : nat) (_key _param : string) (r : value) :
  pending st !! j = Some (Some (TPrefetch _key _param)) →
  step h keyBase st (FactorySettles j (Resolved r)) = prefetch_then h _key r (retire j st).
Proof. intros Hj. simpl. now rewrite Hj. Qed.

Lemma prefetch_then_serialisable (h : host) (k : string) (r : value) (st : state) :
  (∀ e, JSON_stringify h r ≠ JsonThrows e) →
  prefetch_then h k r st
  = writeFile h k (json_data (JSON_stringify h r)) (set_cache k r (set_result r st)).
Proof.
  intros Hjson. unfold prefetch_then; cbv zeta. simpl.
  destruct (JSON_stringify h r) as [s | | e]; [reflexivity | reflexivity |].
  now destruct (Hjson e).
Qed.

(** C8, as stated, fails.  A static build on the server; the factory
    resolves to an object that contains itself.  [JSON.stringify] throws on
    it at line 126, before [writeFile] is entered: no file write is
    attempted, and what was thrown is not caught but rejects the hook; the
    handle and the cache hold the value. *)
Lemma unserialisable_value_is_not_written_counterexample :
  let h := demo_host false true in
  let st' := run h "post" (useStatic h "post" ∅ (Some "42"))
                 [RunPrefetch; FactorySettles 0 (Resolved VCyclic)] in
  factory_calls st' = [CallFactory "42" "post-42"]
  ∧ write_calls st' = []
  ∧ console st' = []
  ∧ uncaught st' = [VStr "TypeError: Converting circular structure to JSON"]
  ∧ result st' = VCyclic
  ∧ staticCache st' !! "post-42" = Some VCyclic.
Proof. vm_compute. repeat split. Qed.

(** C8, amended.  In a static build on the server, the resolution of the
    factory to a value on which [JSON.stringify] does not throw is followed
    by exactly one call of [writeFileSync], for
    [join(staticPath, key + ".json")].  If that call throws, the error goes
    to the console and nowhere else, the disk is untouched, and the handle
    and the cache entry hold the resolved value as they did before the
    write; settling the same promise again does nothing. *)
Theorem write_failure_is_logged_and_ignored (h : host) (keyBase : string)
    (st : state) (j : nat) (_key _param : string) (r : value)
    (Hserver : process_client h = false)
    (Hstatic : process_static h = true)
    (Hpending : pending st !! j = Some (Some (TPrefetch _key _param)))
    (Hjson : ∀ e, JSON_stringify h r ≠ JsonThrows e) :
  let st' := step h keyBase st (FactorySettles j (Resolved r)) in
  let path := path_join h (staticPath h) (_key +:+ ".json") in
  let data := json_data (JSON_stringify h r) in
  let before_write := set_cache _key r (set_result r (retire j st)) in
  st' = writeFile h _key data before_write
  ∧ write_calls st' = write_calls st ++ [CallWriteFileSync path data]
  ∧ result st' = r
  ∧ staticCache st' !! _key = Some r
  ∧ staticCache st' = staticCache before_write
  ∧ uncaught st' = uncaught st
  ∧ (∀ e, writeFileSync h path data = Some e →
          st' = console_log e (perform (CallWriteFileSync path data) before_write)
          ∧ console st' = console st ++ [e]
          ∧ disk st' = disk st)
  ∧ (∀ o, step h keyBase st' (FactorySettles j o) = st').
Proof.
  cbv zeta.
  assert (Hgone : <[j := None]> (pending st) !! j = Some None).
  { apply list_lookup_insert_eq. eapply lookup_lt_Some. exact Hpending. }
  rewrite (step_prefetch_resolved h keyBase st j _key _param r Hpending).
  rewrite (prefetch_then_serialisable h _key r _ Hjson).
  generalize (json_data (JSON_stringify h r)). intros data.
  unfold writeFile, write_calls. rewrite Hserver, Hstatic. simpl.
  destruct (writeFileSync h _ data) as [e|] eqn:Hw.
  - repeat split; simpl; rewrite ?Hgone, ?lookup_insert_eq; try easy.
    + rewrite List.filter_app. reflexivity.
    + congruence.
    + congruence.
  - destruct data as [s|];
      repeat split; simpl; rewrite ?Hgone, ?lookup_insert_eq; try easy;
      rewrite List.filter_app; reflexivity.
Qed.

(** A static build whose output directory is read-only: the write of
    [dist/static/post-42.json] throws [EACCES]; it is logged, and handle and
    cache hold [{title: "A"}]. *)
Lemma write_failure_is_logged_and_ignored_witness :
  let h := demo_host_readonly in
  let st := step h "post" (useStatic h "post" ∅ (Some "42")) RunPrefetch in
  let st' := step h "post" st (FactorySettles 0 (Resolved (title "A"))) in
  pending st !! 0 = Some (Some (TPrefetch "post-42" "42"))
  ∧ write_calls st' = [CallWriteFileSync "dist/static/post-42.json" (Some "{}")]
  ∧ result st' = title "A"
  ∧ staticCache st' !! "post-42" = Some (title "A")
  ∧ console st' = [VStr "EACCES"]
  ∧ uncaught st' = [].
Proof.
  intros h st st'.
  assert (Hp : pending st !! 0 = Some (Some (TPrefetch "post-42" "42"))) by reflexivity.
  assert (Hjson : ∀ e, JSON_stringify h (title "A") ≠ JsonThrows e)
    by (intros e; discriminate).
  destruct (write_failure_is_logged_and_ignored h "post" st 0 "post-42" "42" (title "A")
              eq_refl eq_refl Hp Hjson)
    as (_ & Hw & Hr & Hc & _ & Hu & Hlog & _).
  destruct (Hlog (VStr "EACCES") eq_refl) as (_ & Hcon & _).
  repeat split; assumption.
Defined.

(** * The key *)

Section KeyFacts.

Variable keyBase : string.

Lemma key_prefix (p : string) :
  String.substring 0 (String.length keyBase) (key keyBase p) = keyBase.
Proof.
  unfold key. induction keyBase as [|a s IH]; simpl.
  - reflexivity.
  - now rewrite IH.
Qed.

Lemma key_hyphen (p : string) :
  String.get (String.length keyBase) (key keyBase p) = Some "-"%char.
Proof. unfold key. induction keyBase as [|a s IH]; simpl; [reflexivity | exact IH]. Qed.

Lemma substring_all (s : string) : String.substring 0 (String.length s) s = s.
Proof. induction s as [|a s IH]; simpl; [reflexivity | now rewrite IH]. Qed.

Lemma key_suffix (p : string) :
  String.substring (S (String.length keyBase)) (String.length p) (key keyBase p) = p.
Proof.
  unfold key. induction keyBase as [|a s IH]; simpl.
  - apply substring_all.
  - exact IH.
Qed.

Lemma key_length (p : string) :
  String.length (key keyBase p) = String.length keyBase + 1 + String.length p.
Proof.
  unfold key. induction keyBase as [|a s IH]; simpl; [reflexivity | now rewrite IH].
Qed.

Lemma key_has_hyphen (p : string) : has_hyphen (key keyBase p) = true.
Proof.
  unfold key. induction keyBase as [|a s IH]; simpl; [reflexivity|].
  rewrite IH. apply orb_true_r.
Qed.

Lemma key_not_inherited (p : string) : key keyBase p ∉ Object_prototype_names.
Proof.
  intros Hin.
  assert (Hall : Forall (λ n, has_hyphen n = false) Object_prototype_names)
    by (repeat constructor).
  rewrite Forall_forall in Hall. specialize (Hall _ Hin).
  rewrite key_has_hyphen in Hall. discriminate.
Qed.

End KeyFacts.

(** Only [SetParam] changes the parameter. *)
Lemma step_param (h : host) (keyBase : string) (st : state) (ev : event) :
  param (step h keyBase st ev)
  = match ev with SetParam p => p | _ => param st end.
Proof.
  destruct ev as [p | | i o | i r | ]; simpl.
  - reflexivity.
  - destruct (watched st) as [seen|]; [|reflexivity].
    destruct (String.eqb seen (key_value keyBase st)); [reflexivity|].
    unfold watch_cb; simpl.
    destruct (staticCache st !! key_value keyBase st); [reflexivity|].
    now destruct (negb (process_static h)).
  - destruct (pending st !! i) as [[[p k0 | k0 | k0 p]|]|]; try reflexivity.
    + now destruct o.
    + destruct o; [|reflexivity].
      now rewrite (proj1 (proj2 (proj2 (prefetch_then_frame _ _ _ _)))).
  - destruct (pending st !! i) as [[[p k0 | k0 | k0 p]|]|]; try reflexivity.
    now destruct r.
  - now destruct (hooked st).
Qed.

Lemma useStatic_param (h : host) (keyBase : string)
    (c : gmap string value) (parg : option string) :
  param (useStatic h keyBase c parg) = default EmptyString parg.
Proof.
  unfold useStatic, at_call, precheck; simpl.
  destruct (truthy _); destruct (process_client h);
    unfold watch_cb, server_setup; simpl;
    repeat (match goal with |- context [match ?x with _ => _ end] => destruct x end;
            simpl); reflexivity.
Qed.

(** C5.  The key is the key base, a hyphen and the parameter, in that
    order and with nothing else: it starts with [keyBase], has ["-"] at the
    next position and ends with [param].  The current key is that function
    of the current parameter, so it follows every assignment of the
    parameter and no other event changes it; the watcher hands the handler
    that key.  With the parameter omitted the parameter is the empty string
    and the key is [keyBase] followed by a hyphen. *)
Theorem key_is_keyBase_dash_param (h : host) (keyBase : string) :
  (∀ p : string,
      key keyBase p = keyBase +:+ "-" +:+ p
      ∧ String.length (key keyBase p) = String.length keyBase + 1 + String.length p
      ∧ String.substring 0 (String.length keyBase) (key keyBase p) = keyBase
      ∧ String.get (String.length keyBase) (key keyBase p) = Some "-"%char
      ∧ String.substring (S (String.length keyBase)) (String.length p) (key keyBase p) = p)
  ∧ (∀ (st : state) (ev : event),
      key_value keyBase (step h keyBase st ev)
      = match ev with
        | SetParam p => key keyBase p
        | _ => key_value keyBase st
        end)
  ∧ (∀ st : state,
      watched (step h keyBase st Flush)
      = match watched st with
        | Some _ => Some (key keyBase (param st))
        | None => None
        end)
  ∧ (∀ c : gmap string value,
      param (useStatic h keyBase c None) = EmptyString
      ∧ key_value keyBase (useStatic h keyBase c None) = keyBase +:+ "-")
  ∧ (∀ (c : gmap string value) (p : string),
      key_value keyBase (useStatic h keyBase c (Some p)) = keyBase +:+ "-" +:+ p).
Proof.
  split; [|split; [|split; [|split]]].
  - intros p. split; [reflexivity|].
    split; [apply key_length|].
    split; [apply key_prefix|].
    split; [apply key_hyphen | apply key_suffix].
  - intros st ev. unfold key_value. rewrite step_param. now destruct ev.
  - intros st. simpl. destruct (watched st) as [seen|] eqn:Hw; [|exact Hw].
    destruct (String.eqb seen (key_value keyBase st)) eqn:Heq.
    + apply String.eqb_eq in Heq. now rewrite Hw, Heq.
    + unfold watch_cb; simpl.
      destruct (staticCache st !! key_value keyBase st); [reflexivity|].
      now destruct (negb (process_static h)).
  - intros c. unfold key_value. now rewrite useStatic_param.
  - intros c p. unfold key_value. now rewrite useStatic_param.
Qed.

(** * A resolution overtaken by a parameter change *)

(** The [then] callback of [onFailure] stores under the key that is current
    when it runs, whatever key the factory was called with. *)
Lemma factory_result_goes_to_live_key (h : host) (keyBase : string)
    (st : state) (j : nat) (p k : string) (r : value) :
  pending st !! j = Some (Some (TFactory p k)) →
  staticCache (step h keyBase st (FactorySettles j (Resolved r)))
  = <[key_value keyBase st := r]> (staticCache st).
Proof. intros Hj. simpl. now rewrite Hj. Qed.

(** C6.  Client, no static build, key base [post].  The parameter is [1],
    then [2]; both factory calls are in flight.  The call for [2] resolves
    to [{title: "B"}], then the call for [1] resolves to [{title: "A"}].
    The late value is stored under [post-2], the current key, where it
    replaces the right one; [post-1], its own key, gets no entry. *)
Example stale_factory_result_overwrites_current_key :
  let h := demo_host true false in
  let st := run h "post" (useStatic h "post" ∅ (Some "1"))
                [SetParam "2"; Flush;
                 FactorySettles 1 (Resolved (title "B"));
                 FactorySettles 0 (Resolved (title "A"))] in
  trace st = [CallFactory "1" "post-1"; CallFactory "2" "post-2"]
  ∧ key_value "post" st = "post-2"
  ∧ staticCache st !! "post-2" = Some (title "A")
  ∧ staticCache st !! "post-1" = None
  ∧ result st = title "A".
Proof. vm_compute. repeat split. Qed.

(** * The check at call time *)

(** C9, as stated, fails.  The server inlined the value [0] for the key, so
    the handle is not empty (it is not null) when [useStatic] is called; the
    check does not seed the cache, and the client calls the factory. *)
Lemma precheck_skips_falsy_handle_counterexample :
  let h := demo_host_hydrated (VNum 0) in
  let st0 := at_call h "post" ∅ (Some "42") in
  result st0 = VNum 0
  ∧ result st0 ≠ VNull
  ∧ staticCache (precheck "post" st0) !! "post-42" = None
  ∧ staticCache (useStatic h "post" ∅ (Some "42")) !! "post-42" = None
  ∧ trace (useStatic h "post" ∅ (Some "42")) = [CallFactory "42" "post-42"].
Proof. vm_compute. repeat split. discriminate. Qed.

(** C9, amended.  The check runs first: the branches of [useStatic] start
    from its result.  It seeds the cache under the current key exactly when
    the handle's value is truthy, and then changes nothing else; when the
    value is falsy (null, undefined, [false], [0], [NaN], the empty string)
    it changes nothing at all.  So a call whose handle is truthy ends with
    that value cached and nothing started, and a call whose handle is falsy
    leaves the cache as it found it. *)
Theorem precheck_seeds_truthy_handle (h : host) (keyBase : string)
    (c : gmap string value) (parg : option string) :
  let k := key keyBase (default EmptyString parg) in
  let st0 := at_call h keyBase c parg in
  useStatic h keyBase c parg
  = (if process_client h
     then watch_cb h keyBase k (set_watched (Some k) (precheck keyBase st0))
     else server_setup keyBase (precheck keyBase st0))
  ∧ (truthy (result st0) = true →
       precheck keyBase st0 = set_cache k (result st0) st0
       ∧ staticCache (precheck keyBase st0) !! k = Some (result st0)
       ∧ (∀ k', k' ≠ k → staticCache (precheck keyBase st0) !! k' = c !! k')
       ∧ silent (useStatic h keyBase c parg)
       ∧ staticCache (useStatic h keyBase c parg) = <[k := result st0]> c
       ∧ result (useStatic h keyBase c parg) = result st0)
  ∧ (truthy (result st0) = false →
       precheck keyBase st0 = st0
       ∧ staticCache (useStatic h keyBase c parg) = c).
Proof.
  cbv zeta. split; [|split].
  - unfold useStatic, at_call, precheck, key_value; simpl.
    now destruct (truthy _).
  - intros Ht. unfold useStatic, at_call, precheck, silent, key_value in *; simpl in *.
    rewrite Ht.
    split; [reflexivity|]. split; [simpl; apply lookup_insert_eq|].
    split; [intros k' Hk'; simpl; now apply lookup_insert_ne|].
    destruct (process_client h); unfold watch_cb, server_setup, key_value; simpl;
      rewrite lookup_insert_eq; simpl; auto.
  - intros Hf. unfold useStatic, at_call, precheck, key_value in *; simpl in *.
    rewrite Hf. split; [reflexivity|].
    destruct (process_client h); unfold watch_cb, server_setup, key_value; simpl.
    + destruct (c !! _); [reflexivity|]. now destruct (negb (process_static h)).
    + now destruct (c !! _).
Qed.

(** The server inlined [{title: "A"}]: the client seeds [post-42] with it
    and starts nothing. *)
Lemma precheck_seeds_truthy_handle_witness :
  let h := demo_host_hydrated (title "A") in
  truthy (result (at_call h "post" ∅ (Some "42"))) = true
  ∧ staticCache (useStatic h "post" ∅ (Some "42")) = {[ "post-42" := title "A" ]}
  ∧ trace (useStatic h "post" ∅ (Some "42")) = [].
Proof.
  intros h.
  assert (Ht : truthy (result (at_call h "post" ∅ (Some "42"))) = true) by reflexivity.
  split; [exact Ht|].
  destruct (precheck_seeds_truthy_handle h "post" ∅ (Some "42"))
    as (_ & Hseed & _).
  destruct (Hseed Ht) as (_ & _ & _ & Hsilent & Hcache & _).
  split; [exact Hcache | exact (proj1 Hsilent)].
Defined.

(** * Membership and truthiness *)

(** C10.  The two resolution paths test membership: a key whose cached
    value is falsy is still a hit, on the client and on the server, and the
    handle receives that value with nothing started.  The check at call
    time tests truthiness instead: a falsy value in the handle is not
    seeded, so with the key absent the call ends with the key still absent
    and a resolution under way.  [0], the empty string and [false] are such
    values. *)
Theorem hit_by_membership_seed_by_truthiness (h : host) (keyBase : string)
    (st : state) (k : string) (v : value)
    (Hfalsy : truthy v = false)
    (Hcached : staticCache st !! k = Some v) :
  (watch_cb h keyBase k st = set_result v st
   ∧ trace (watch_cb h keyBase k st) = trace st
   ∧ pending (watch_cb h keyBase k st) = pending st)
  ∧ (k = key_value keyBase st →
     server_setup keyBase st = set_result v st
     ∧ hooked (server_setup keyBase st) = hooked st)
  ∧ (∀ st', result st' = v → precheck keyBase st' = st')
  ∧ (∀ (c : gmap string value) (parg : option string),
        ssrRef h VNull (key keyBase (default EmptyString parg)) = v →
        c !! key keyBase (default EmptyString parg) = None →
        let st1 := useStatic h keyBase c parg in
        staticCache st1 !! key keyBase (default EmptyString parg) = None
        ∧ (if process_client h then length (trace st1) = 1 ∧ length (pending st1) = 1
           else hooked st1 = true))
  ∧ truthy (VNum 0) = false
  ∧ truthy (VStr EmptyString) = false
  ∧ truthy (VBool false) = false.
Proof.
  split; [|split; [|split; [|split]]].
  - rewrite (watch_cb_hit h keyBase st k v Hcached). easy.
  - intros ->. rewrite (server_setup_hit keyBase st v Hcached). easy.
  - intros st' Hr. unfold precheck. now rewrite Hr, Hfalsy.
  - intros c parg Hssr Hc. cbv zeta.
    unfold useStatic, at_call, precheck, key_value; simpl. rewrite Hssr, Hfalsy.
    destruct (process_client h); unfold watch_cb, server_setup, key_value; simpl;
      rewrite Hc; [|easy].
    destruct (negb (process_static h)); simpl; rewrite ?length_app; easy.
  - easy.
Qed.

(** [post-42] is cached as [0]: the handler takes it, calls nothing; and a
    handle holding [0] is not seeded. *)
Lemma hit_by_membership_seed_by_truthiness_witness :
  let h := demo_host true false in
  let st := client_state "post" {[ "post-42" := VNum 0 ]} VNull "42" in
  (truthy (VNum 0) = false ∧ staticCache st !! "post-42" = Some (VNum 0))
  ∧ result (watch_cb h "post" "post-42" st) = VNum 0
  ∧ trace (watch_cb h "post" "post-42" st) = []
  ∧ precheck "post" (client_state "post" ∅ (VNum 0) "42")
    = client_state "post" ∅ (VNum 0) "42".
Proof.
  intros h st.
  assert (Hf : truthy (VNum 0) = false) by reflexivity.
  assert (Hc : staticCache st !! "post-42" = Some (VNum 0)) by reflexivity.
  split; [split; assumption|].
  destruct (hit_by_membership_seed_by_truthiness h "post" st "post-42" (VNum 0) Hf Hc)
    as ((Heq & Htr & _) & _ & Hpre & _).
  split; [now rewrite Heq|].
  split; [exact Htr|].
  apply Hpre. reflexivity.
Defined.

(** * Beyond the claims: invariants of runs *)

(** Case analysis over the branches of one event. *)
Ltac step_branches :=
  unfold step, watch_cb, prefetch_then, prefetch_hook, onFailure,
         onFailure_then, fetch_then, writeFile;
  repeat match goal with
         | |- context [match ?x with _ => _ end] => destruct x eqn:?
         end;
  simpl in *.

Section RunFacts.

Variable h : host.
Variable keyBase : string.

Lemma key_inj (p q : string) : key keyBase p = key keyBase q → p = q.
Proof.
  unfold key. intros Heq.
  apply (inj (String.app keyBase)) in Heq.
  now apply (inj (String.app "-")) in Heq.
Qed.

Lemma append_assoc (a b c : string) : (a +:+ b) +:+ c = a +:+ (b +:+ c).
Proof.
  induction a as [|x a IH]; [reflexivity|].
  change (String x ((a +:+ b) +:+ c) = String x (a +:+ (b +:+ c))).
  now rewrite IH.
Qed.

(** Each event appends at most one call, and a well-formed one. *)
Lemma step_trace_ok (st : state) (ev : event) :
  Forall (task_ok keyBase) (pending st) →
  ∃ l, trace (step h keyBase st ev) = trace st ++ l
       ∧ (length l ≤ 1)%nat
       ∧ Forall (call_ok h keyBase) l.
Proof.
  intros Htasks.
  assert (Hlook : ∀ i t, pending st !! i = Some (Some t) → task_ok keyBase (Some t)).
  { intros i t Hi. exact (Forall_lookup_1 _ _ _ _ Htasks Hi). }
  step_branches;
    try (exists []; rewrite app_nil_r; split; [reflexivity|];
         split; [simpl; lia | constructor]);
    try (eexists [_]; split; [reflexivity|]; split; [simpl; lia|];
         constructor; [|constructor]; simpl).
  all: try reflexivity.
  all: repeat match goal with
         | H : negb _ = false |- _ => apply negb_false_iff in H
         | H : _ || _ = false |- _ => apply orb_false_iff in H; destruct H
         end.
  all: try (split; [assumption|]; eexists; reflexivity).
  all: match goal with
       | H : pending _ !! _ = Some (Some (TPrefetch ?k ?p)) |- _ =>
           specialize (Hlook _ _ H); simpl in Hlook; subst k
       end.
  all: split; [assumption|]; split; [assumption|]; eexists; reflexivity.
Qed.

(** Promises keep capturing keys of this call site. *)
Lemma step_tasks_ok (st : state) (ev : event) :
  Forall (task_ok keyBase) (pending st) →
  Forall (task_ok keyBase) (pending (step h keyBase st ev)).
Proof.
  intros Htasks.
  step_branches; rewrite ?Forall_app; repeat split;
    try (apply Forall_insert; [assumption | exact I]);
    try assumption;
    try (constructor; [|constructor]); simpl; eauto.
Qed.

(** The cache gains entries under keys of this call site only. *)
Lemma step_cache_keys (st : state) (ev : event) (k : string) :
  Forall (task_ok keyBase) (pending st) →
  is_Some (staticCache (step h keyBase st ev) !! k) →
  is_Some (staticCache st !! k) ∨ ∃ p, k = key keyBase p.
Proof.
  intros Htasks.
  assert (Hlook : ∀ i t, pending st !! i = Some (Some t) → task_ok keyBase (Some t)).
  { intros i t Hi. exact (Forall_lookup_1 _ _ _ _ Htasks Hi). }
  step_branches; intros Hk; try (left; exact Hk);
    apply lookup_insert_is_Some in Hk; destruct Hk as [<- | [_ Hk]];
    try (left; exact Hk);
    try (right; eexists; reflexivity);
    match goal with
    | H : pending _ !! _ = Some (Some _) |- _ =>
        specialize (Hlook _ _ H); simpl in Hlook
    end.
  all: try (right; exact Hlook).
  all: right; eexists; exact Hlook.
Qed.

Lemma run_well_formed (evs : list event) (st : state) :
  Forall (task_ok keyBase) (pending st) →
  Forall (call_ok h keyBase) (trace st) →
  Forall (task_ok keyBase) (pending (run h keyBase st evs))
  ∧ Forall (call_ok h keyBase) (trace (run h keyBase st evs))
  ∧ ∀ k, is_Some (staticCache (run h keyBase st evs) !! k) →
         is_Some (staticCache st !! k) ∨ ∃ p, k = key keyBase p.
Proof.
  revert st. induction evs as [|ev evs IH]; intros st Htasks Hcalls.
  - simpl. auto.
  - simpl.
    destruct (step_trace_ok st ev Htasks) as (l & Htr & _ & Hl).
    destruct (IH (step h keyBase st ev)) as (IH1 & IH2 & IH3).
    + now apply step_tasks_ok.
    + rewrite Htr. apply Forall_app. now split.
    + split; [exact IH1|]. split; [exact IH2|].
      intros k Hk. destruct (IH3 k Hk) as [Hk' | Hk']; [|now right].
      now apply (step_cache_keys st ev k).
Qed.

Lemma useStatic_well_formed (c : gmap string value) (parg : option string) :
  Forall (task_ok keyBase) (pending (useStatic h keyBase c parg))
  ∧ Forall (call_ok h keyBase) (trace (useStatic h keyBase c parg))
  ∧ ∀ k, is_Some (staticCache (useStatic h keyBase c parg) !! k) →
         is_Some (c !! k) ∨ ∃ p, k = key keyBase p.
Proof.
  unfold useStatic, at_call, precheck, server_setup, watch_cb, onFailure, key_value;
    simpl.
  repeat match goal with
         | |- context [match ?x with _ => _ end] => destruct x eqn:?
         end; simpl.
  all: split; [repeat constructor; simpl; eauto|].
  all: split; [repeat constructor; simpl; eauto|].
  all: try (apply negb_false_iff; assumption).
  all: intros k Hk; try (left; exact Hk).
  all: apply lookup_insert_is_Some in Hk; destruct Hk as [<- | [_ Hk]];
    [right; eexists; reflexivity | left; exact Hk].
Qed.

(** Without a client, or without a static build, no event touches the
    disk or the console, and none calls [writeFileSync]. *)
Lemma step_no_write (st : state) (ev : event) :
  process_client h = true ∨ process_static h = false →
  disk (step h keyBase st ev) = disk st
  ∧ console (step h keyBase st ev) = console st
  ∧ write_calls (step h keyBase st ev) = write_calls st.
Proof.
  intros Hside.
  assert (Hguard : process_client h || negb (process_static h) = true).
  { destruct Hside as [-> | ->]; [reflexivity | apply orb_true_r]. }
  unfold write_calls.
  step_branches; try congruence;
    rewrite ?List.filter_app; simpl; rewrite ?app_nil_r; auto.
Qed.

(** Outside a static build no event fetches. *)
Lemma step_no_fetch (st : state) (ev : event) :
  process_static h = false →
  fetch_calls (step h keyBase st ev) = fetch_calls st.
Proof.
  intros Hdyn. unfold fetch_calls.
  step_branches; try (rewrite Hdyn in *; discriminate);
    rewrite ?List.filter_app; simpl; rewrite ?app_nil_r; auto.
Qed.

(** Events that bring no value leave the cache alone; events other than a
    rejection of the factory, and than a resolution to a value on which
    [JSON.stringify] throws, leave the uncaught rejections alone. *)
Lemma step_frame (st : state) (ev : event) :
  (delivers ev = false → staticCache (step h keyBase st ev) = staticCache st)
  ∧ (rejects ev = false → serialisable h ev →
     uncaught (step h keyBase st ev) = uncaught st).
Proof.
  split.
  - intros Hev; step_branches; try discriminate; reflexivity.
  - intros Hev Hser; step_branches; try discriminate; try reflexivity.
    all: exfalso; eapply Hser; eassumption.
Qed.

End RunFacts.

(** X1.  Whatever events follow a call of [useStatic], every call it makes
    has the expected shape: the factory always receives a parameter together
    with the key of that very parameter; a fetch happens only in a static
    build and asks for the artifact of a key of this call site; a file is
    written only on the server in a static build, to the artifact of a key
    of this call site. *)
Theorem calls_are_for_keys_of_this_site (h : host) (keyBase : string)
    (c : gmap string value) (parg : option string) (evs : list event) :
  Forall (call_ok h keyBase) (trace (run h keyBase (useStatic h keyBase c parg) evs)).
Proof.
  destruct (useStatic_well_formed h keyBase c parg) as (Ht & Hc & _).
  exact (proj1 (proj2 (run_well_formed h keyBase evs _ Ht Hc))).
Qed.

(** X2.  A call of [useStatic] and whatever follows it never create a cache
    entry under a string that is not a key of its own call site: an absent
    name that is not of the form [keyBase-param] stays absent. *)
Theorem cache_of_other_sites_untouched (h : host) (keyBase : string)
    (c : gmap string value) (parg : option string) (evs : list event) (k : string)
    (Habsent : c !! k = None)
    (Hforeign : ∀ p, k ≠ key keyBase p) :
  staticCache (run h keyBase (useStatic h keyBase c parg) evs) !! k = None.
Proof.
  destruct (useStatic_well_formed h keyBase c parg) as (Ht & Hc & Hk0).
  destruct (run_well_formed h keyBase evs _ Ht Hc) as (_ & _ & Hk).
  apply eq_None_not_Some. intros Hsome.
  destruct (Hk k Hsome) as [Hin | [p Hp]]; [|now apply (Hforeign p)].
  destruct (Hk0 k Hin) as [Hin0 | [p Hp]]; [|now apply (Hforeign p)].
  rewrite Habsent in Hin0. now destruct Hin0.
Qed.

(** The call site [post] resolves parameter [42]; [user-42] stays absent. *)
Lemma cache_of_other_sites_untouched_witness :
  let h := demo_host true false in
  staticCache (run h "post" (useStatic h "post" ∅ (Some "42"))
                 [FactorySettles 0 (Resolved (title "A"))]) !! "user-42" = None.
Proof.
  intros h.
  apply (cache_of_other_sites_untouched h "post" ∅ (Some "42")).
  - reflexivity.
  - intros p Heq. vm_compute in Heq. discriminate Heq.
Defined.

(** X3.  On the client, and outside a static build, nothing is ever written:
    from any state and through any events, the disk and the console stay as
    they are and [writeFileSync] is not called. *)
Theorem no_write_unless_server_static_build (h : host) (keyBase : string)
    (st : state) (evs : list event)
    (Hside : process_client h = true ∨ process_static h = false) :
  disk (run h keyBase st evs) = disk st
  ∧ console (run h keyBase st evs) = console st
  ∧ write_calls (run h keyBase st evs) = write_calls st.
Proof.
  revert st. induction evs as [|ev evs IH]; intros st; [easy|].
  simpl. destruct (IH (step h keyBase st ev)) as (-> & -> & ->).
  now apply step_no_write.
Qed.

(** The server of a plain server-rendered build resolves [post-42]: no file
    appears. *)
Lemma no_write_unless_server_static_build_witness :
  let h := demo_host false false in
  let st := run h "post" (useStatic h "post" ∅ (Some "42"))
                [RunPrefetch; FactorySettles 0 (Resolved (title "A"))] in
  disk st = ∅ ∧ console st = [] ∧ write_calls st = [] ∧ result st = title "A".
Proof.
  intros h st.
  destruct (no_write_unless_server_static_build h "post"
              (useStatic h "post" ∅ (Some "42"))
              [RunPrefetch; FactorySettles 0 (Resolved (title "A"))])
    as (Hd & Hc & Hw); [right; reflexivity|].
  repeat split; assumption || reflexivity.
Defined.

(** X4.  Outside a static build no artifact is ever fetched: from any state
    and through any events the fetches made stay the same. *)
Theorem no_fetch_outside_static_build (h : host) (keyBase : string)
    (st : state) (evs : list event)
    (Hdynamic : process_static h = false) :
  fetch_calls (run h keyBase st evs) = fetch_calls st.
Proof.
  revert st. induction evs as [|ev evs IH]; intros st; [easy|].
  simpl. rewrite IH. now apply step_no_fetch.
Qed.

(** A client of a server-rendered build moves from [1] to [2]: two factory
    calls, no fetch. *)
Lemma no_fetch_outside_static_build_witness :
  let h := demo_host true false in
  let st := run h "post" (useStatic h "post" ∅ (Some "1")) [SetParam "2"; Flush] in
  fetch_calls st = []
  ∧ trace st = [CallFactory "1" "post-1"; CallFactory "2" "post-2"].
Proof.
  intros h st. split; [|reflexivity].
  exact (no_fetch_outside_static_build h "post" (useStatic h "post" ∅ (Some "1"))
           [SetParam "2"; Flush] eq_refl).
Defined.

(** X5.  The cache is written only when a value arrives: through events
    among parameter changes, watcher runs, hook runs, rejections of the
    factory and failed fetches, the cache stays exactly as it is (the watch
    handler and the hook never write it themselves). *)
Theorem cache_written_only_by_deliveries (h : host) (keyBase : string)
    (st : state) (evs : list event)
    (Hquiet : forallb (λ ev, negb (delivers ev)) evs = true) :
  staticCache (run h keyBase st evs) = staticCache st.
Proof.
  revert st. induction evs as [|ev evs IH]; intros st; [easy|].
  simpl in *. apply andb_true_iff in Hquiet as [Hev Hrest].
  rewrite (IH Hrest). apply step_frame. now apply negb_true_iff.
Qed.

(** A static client whose fetches fail and whose factory rejects: the cache
    is still empty. *)
Lemma cache_written_only_by_deliveries_witness :
  let h := demo_host true true in
  let evs := [FetchSettles 0 NotOk; SetParam "2"; Flush;
              FactorySettles 1 (Rejected (VStr "boom"))] in
  forallb (λ ev, negb (delivers ev)) evs = true
  ∧ staticCache (run h "post" (useStatic h "post" ∅ (Some "1")) evs) = ∅.
Proof.
  intros h evs. split; [reflexivity|].
  assert (Hq : forallb (λ ev, negb (delivers ev)) evs = true) by reflexivity.
  exact (cache_written_only_by_deliveries h "post" (useStatic h "post" ∅ (Some "1"))
           evs Hq).
Defined.



Lemma live_retire (l : list (option task)) (j : nat) (t : task) :
  l !! j = Some (Some t) → live (<[j := None]> l) + 1 = live l.
Proof.
  unfold live. revert j. induction l as [|x l IH]; intros j Hj; [discriminate Hj|].
  destruct j as [|j]; simpl in *.
  - injection Hj as ->. simpl. lia.
  - specialize (IH j Hj). destruct (is_live x); simpl; lia.
Qed.

Lemma live_spawn (l : list (option task)) (t : task) :
  live (l ++ [Some t]) = live l + 1.
Proof. unfold live. rewrite List.filter_app, length_app. reflexivity. Qed.

(** What the continuation of the hook adds to the trace: nothing, or one
    file write. *)
Lemma prefetch_then_trace (h : host) (k : string) (r : value) (st : state) :
  watched (prefetch_then h k r st) = watched st
  ∧ hooked (prefetch_then h k r st) = hooked st
  ∧ (trace (prefetch_then h k r st) = trace st
     ∨ ∃ path data,
         trace (prefetch_then h k r st) = trace st ++ [CallWriteFileSync path data]).
Proof.
  unfold prefetch_then, writeFile; cbv zeta.
  repeat match goal with
         | |- context [match ?x with _ => _ end] => destruct x eqn:?
         end; simpl; eauto 6.
Qed.

(** One event of a server call. *)
Lemma step_server_inv (h : host) (keyBase : string) (st : state) (n : nat) (ev : event) :
  server_inv st n →
  hooked (step h keyBase st ev) = hooked st
  ∧ server_inv (step h keyBase st ev)
      (n + (if hooked st && is_hook_run ev then 1 else 0)).
Proof.
  intros (Hw & Htasks & Hfetch & Hfac & Hwr).
  assert (Hsame : hooked st = hooked st
                  ∧ server_inv st (n + 0)).
  { rewrite Nat.add_0_r. repeat split; assumption. }
  assert (Hretire : ∀ j t st',
             pending st !! j = Some (Some t) →
             watched st' = watched st → hooked st' = hooked st →
             pending st' = <[j := None]> (pending st) →
             (trace st' = trace st
              ∨ ∃ path data, trace st' = trace st ++ [CallWriteFileSync path data]) →
             hooked st' = hooked st ∧ server_inv st' (n + 0)).
  { intros j t st' Hj Hw' Hh' Hp' Ht'. split; [exact Hh'|].
    rewrite Nat.add_0_r. unfold server_inv.
    rewrite Hw', Hp'. split; [exact Hw|].
    split; [apply Forall_insert; [exact Htasks | exact I]|].
    pose proof (live_retire _ _ _ Hj) as Hlive.
    unfold fetch_calls, factory_calls, write_calls in *.
    destruct Ht' as [-> | (path & data & ->)].
    - repeat split; try assumption. lia.
    - rewrite !List.filter_app, !length_app. simpl. rewrite !app_nil_r, Nat.add_0_r.
      repeat split; try assumption. lia. }
  destruct ev as [p | | i o | i r | ]; simpl.
  - rewrite andb_false_r. exact Hsame.
  - rewrite Hw, andb_false_r. exact Hsame.
  - rewrite andb_false_r.
    destruct (pending st !! i) as [[t|]|] eqn:Hi; try exact Hsame.
    pose proof (Forall_lookup_1 _ _ _ _ Htasks Hi) as Ht.
    destruct t as [p k | k | k p]; [now destruct Ht | now destruct Ht |].
    destruct o as [r | e].
    + destruct (prefetch_then_trace h k r (retire i st)) as (Hw' & Hh' & Ht').
      apply (Hretire i (TPrefetch k p)); try assumption.
      apply (prefetch_then_frame h k r (retire i st)).
    + apply (Hretire i (TPrefetch k p)); try assumption; try reflexivity.
      now left.
  - rewrite andb_false_r.
    destruct (pending st !! i) as [[t|]|] eqn:Hi; try exact Hsame.
    pose proof (Forall_lookup_1 _ _ _ _ Htasks Hi) as Ht.
    destruct t as [p k | k | k p]; [now destruct Ht | now destruct Ht |].
    exact Hsame.
  - destruct (hooked st) eqn:Hh; simpl;
      [|split; [exact Hh | exact (proj2 Hsame)]].
    split; [exact Hh|]. unfold server_inv, prefetch_hook; simpl.
    split; [exact Hw|].
    split; [apply Forall_app; split; [exact Htasks | repeat constructor]|].
    unfold fetch_calls, factory_calls, write_calls in *; simpl.
    rewrite !List.filter_app, !length_app, live_spawn. simpl.
    rewrite !app_nil_r, Nat.add_0_r.
    repeat split; try assumption; lia.
Qed.

Lemma run_server_inv (h : host) (keyBase : string) (evs : list event)
    (st : state) (n : nat) :
  server_inv st n →
  hooked (run h keyBase st evs) = hooked st
  ∧ server_inv (run h keyBase st evs) (n + (if hooked st then hook_runs evs else 0)).
Proof.
  revert st n. induction evs as [|ev evs IH]; intros st n Hinv.
  - simpl. split; [reflexivity|].
    replace (n + (if hooked st then hook_runs [] else 0)) with n;
      [exact Hinv | destruct (hooked st); unfold hook_runs; simpl; lia].
  - destruct (step_server_inv h keyBase st n ev Hinv) as (Hh & Hinv').
    destruct (IH _ _ Hinv') as (Hh' & Hinv'').
    change (run h keyBase st (ev :: evs)) with (run h keyBase (step h keyBase st ev) evs).
    split; [now rewrite Hh'|].
    rewrite Hh in Hinv''.
    replace (n + (if hooked st then hook_runs (ev :: evs) else 0))
      with (n + (if hooked st && is_hook_run ev then 1 else 0)
              + (if hooked st then hook_runs evs else 0)); [exact Hinv''|].
    unfold hook_runs. simpl.
    destruct (hooked st), (is_hook_run ev); simpl; lia.
Qed.

(** X7.  On the server a call of [useStatic] never fetches, whatever the
    events and their order.  Whether its hook is registered is settled when
    [useStatic] returns.  The factory is called exactly once for each run of
    a registered hook and never otherwise, so never after a hit at set-up.
    There is at most one file write for each factory call. *)
Theorem server_call_lifecycle (h : host) (keyBase : string)
    (c : gmap string value) (parg : option string) (evs : list event)
    (Hserver : process_client h = false) :
  let st0 := useStatic h keyBase c parg in
  let st := run h keyBase st0 evs in
  fetch_calls st = []
  ∧ hooked st = hooked st0
  ∧ length (factory_calls st) = (if hooked st0 then hook_runs evs else 0)
  ∧ (length (write_calls st) ≤ length (factory_calls st))%nat.
Proof.
  cbv zeta.
  assert (Hinit : server_inv (useStatic h keyBase c parg) 0).
  { unfold useStatic. rewrite Hserver.
    unfold server_setup, precheck, at_call, server_inv, key_value; simpl.
    repeat match goal with
           | |- context [match ?x with _ => _ end] => destruct x eqn:?
           end; simpl; repeat split; auto. }
  destruct (run_server_inv h keyBase evs _ 0 Hinit) as (Hh & _ & _ & Hf & Hfac & Hwr).
  split; [exact Hf|]. split; [exact Hh|]. split; [exact Hfac|]. lia.
Qed.

(** A static server build whose hook is run twice: two factory calls, and
    a file write for each resolution. *)
Lemma server_call_lifecycle_witness :
  let h := demo_host false true in
  let evs := [RunPrefetch; RunPrefetch;
              FactorySettles 0 (Resolved (title "A"));
              FactorySettles 1 (Resolved (title "B"));
              FactorySettles 0 (Resolved (title "C"))] in
  let st := run h "post" (useStatic h "post" ∅ (Some "42")) evs in
  process_client h = false
  ∧ fetch_calls st = []
  ∧ length (factory_calls st) = 2
  ∧ (length (write_calls st) ≤ length (factory_calls st))%nat
  ∧ result st = title "B".
Proof.
  intros h evs st.
  assert (Hserver : process_client h = false) by reflexivity.
  split; [exact Hserver|].
  destruct (server_call_lifecycle h "post" ∅ (Some "42") evs Hserver)
    as (Hf & _ & Hfac & Hwr).
  split; [exact Hf|]. split; [exact Hfac|]. split; [exact Hwr | reflexivity].
Defined.

(** * Beyond the claims: keys *)

Lemma key_eqb (keyBase p q : string) :
  String.eqb (key keyBase p) (key keyBase q) = String.eqb p q.
Proof.
  destruct (String.eqb_spec p q) as [-> | Hne].
  - apply String.eqb_refl.
  - apply String.eqb_neq. intros Heq. apply Hne. exact (key_inj keyBase p q Heq).
Qed.

Lemma key_nested (keyBase p q : string) :
  key (key keyBase p) q = key keyBase (key p q).
Proof. unfold key. now rewrite !append_assoc. Qed.

(** X8.  For one key base, two parameters have the same key exactly when
    they are equal, so distinct parameters never share a cache entry.
    Across key bases keys do collide: the key base [keyBase-p] with
    parameter [q] and the key base [keyBase] with parameter [p-q] have the
    same key. *)
Theorem key_separates_params_not_sites (keyBase p q : string) :
  String.eqb (key keyBase p) (key keyBase q) = String.eqb p q
  ∧ key (key keyBase p) q = key keyBase (key p q).
Proof. split; [apply key_eqb | apply key_nested]. Qed.

(** X9.  Two call sites whose keys collide share cache entries: what the
    site [keyBase] cached for the parameter [p-q] is a hit for the site
    [keyBase-p] with parameter [q], whose handle receives it without any
    call of its own factory. *)
Theorem colliding_sites_share_entries (h : host) (keyBase p q : string)
    (c : gmap string value) (v : value)
    (Hcached : c !! key keyBase (key p q) = Some v)
    (Hblank : truthy (ssrRef h VNull (key (key keyBase p) q)) = false) :
  let st := useStatic h (key keyBase p) c (Some q) in
  result st = v ∧ silent st ∧ staticCache st = c.
Proof.
  cbv zeta. unfold useStatic, at_call, precheck, silent, key_value; simpl.
  rewrite Hblank.
  destruct (process_client h); unfold watch_cb, server_setup, key_value; simpl;
    rewrite key_nested, Hcached; simpl; auto.
Qed.

(** The site [post] cached parameter [2020-7] as [{title: "A"}]; the site
    [post-2020] with parameter [7] shows it. *)
Lemma colliding_sites_share_entries_witness :
  let h := demo_host true false in
  let c : gmap string value := {[ "post-2020-7" := title "A" ]} in
  c !! key "post" (key "2020" "7") = Some (title "A")
  ∧ result (useStatic h (key "post" "2020") c (Some "7")) = title "A"
  ∧ trace (useStatic h (key "post" "2020") c (Some "7")) = [].
Proof.
  intros h c.
  assert (Hc : c !! key "post" (key "2020" "7") = Some (title "A")) by reflexivity.
  split; [exact Hc|].
  destruct (colliding_sites_share_entries h "post" "2020" "7" c (title "A") Hc eq_refl)
    as (Hr & (Ht & _) & _).
  split; [exact Hr | exact Ht].
Defined.

(** * Beyond the claims: where values come from *)

Lemma step_values (h : host) (keyBase : string) (P : value → Prop)
    (st : state) (ev : event) :
  P (result st) →
  (∀ k v, staticCache st !! k = Some v → P v) →
  brings P ev →
  P (result (step h keyBase st ev))
  ∧ (∀ k v, staticCache (step h keyBase st ev) !! k = Some v → P v).
Proof.
  intros Hres Hcache Hev.
  step_branches; (split; [|intros k' v']); eauto;
    try (intros [[_ <-] | [_ Hk']]%lookup_insert_Some; eauto).
Qed.

(** X10.  Nothing is invented: if a property holds of the handle's value
    and of every cached value, and of every value that the factory or a
    fetch brings later, it holds of the handle's value and of every cached
    value after any events.  (With the property [is a T or null] this is
    the type of the handle.) *)
Theorem values_come_from_deliveries (h : host) (keyBase : string)
    (P : value → Prop) (st : state) (evs : list event)
    (Hresult : P (result st))
    (Hcache : ∀ k v, staticCache st !! k = Some v → P v)
    (Hevents : Forall (brings P) evs) :
  P (result (run h keyBase st evs))
  ∧ (∀ k v, staticCache (run h keyBase st evs) !! k = Some v → P v).
Proof.
  revert st Hresult Hcache.
  induction Hevents as [|ev evs Hev _ IH]; intros st Hresult Hcache; [easy|].
  simpl. destruct (step_values h keyBase P st ev Hresult Hcache Hev) as [H1 H2].
  now apply IH.
Qed.

(** Every value brought is an object or null: so is the handle. *)
Lemma values_come_from_deliveries_witness :
  let h := demo_host true false in
  let P := λ v, match v with VNull | VObj _ => True | _ => False end in
  let evs := [FactorySettles 0 (Resolved (title "A")); SetParam "2"; Flush;
              FactorySettles 1 (Resolved VNull)] in
  Forall (brings P) evs
  ∧ P (result (run h "post" (useStatic h "post" ∅ (Some "1")) evs)).
Proof.
  intros h P evs.
  assert (Hevs : Forall (brings P) evs) by (repeat constructor).
  split; [exact Hevs|].
  apply (values_come_from_deliveries h "post" P (useStatic h "post" ∅ (Some "1")) evs).
  - exact I.
  - intros k v Hk. vm_compute in Hk. discriminate Hk.
  - exact Hevs.
Defined.

(** * Beyond the claims: whole runs on the client *)

(** The transitions of a run, one equation each. *)
Section Transitions.

Variable h : host.
Variable keyBase : string.

Lemma run_cons (st : state) (ev : event) (evs : list event) :
  run h keyBase st (ev :: evs) = run h keyBase (step h keyBase st ev) evs.
Proof. reflexivity. Qed.

Lemma run_nil (st : state) : run h keyBase st [] = st.
Proof. reflexivity. Qed.

Lemma step_fetch_ok (st : state) (j : nat) (k : string) (json : value) :
  pending st !! j = Some (Some (TFetch k)) →
  step h keyBase st (FetchSettles j (OkJson json)) = fetch_then k json (retire j st).
Proof. intros Hj. simpl. now rewrite Hj. Qed.

Lemma step_fetch_failed (st : state) (j : nat) (k : string) (resp : response) :
  pending st !! j = Some (Some (TFetch k)) →
  fetch_failed resp = true →
  step h keyBase st (FetchSettles j resp) = onFailure keyBase (retire j st).
Proof. intros Hj Hf. simpl. rewrite Hj. now destruct resp. Qed.

Lemma step_factory_resolved (st : state) (j : nat) (p k : string) (r : value) :
  pending st !! j = Some (Some (TFactory p k)) →
  step h keyBase st (FactorySettles j (Resolved r))
  = onFailure_then keyBase r (retire j st).
Proof. intros Hj. simpl. now rewrite Hj. Qed.

Lemma step_flush_new (st : state) (seen : string) :
  watched st = Some seen →
  seen ≠ key_value keyBase st →
  step h keyBase st Flush
  = watch_cb h keyBase (key_value keyBase st)
      (set_watched (Some (key_value keyBase st)) st).
Proof.
  intros Hw Hne. simpl. rewrite Hw.
  apply String.eqb_neq in Hne. now rewrite Hne.
Qed.

Lemma key_neq (p q : string) : p ≠ q → key keyBase p ≠ key keyBase q.
Proof. intros Hne Heq. apply Hne. exact (key_inj keyBase p q Heq). Qed.

End Transitions.

(** X11.  A static client whose artifact is missing ends with the factory's
    value: after a miss, a failed fetch and the resolution of the fallback,
    the handle and the cache entry of the key hold the factory's value, the
    calls made are that one fetch and that one factory call, both promises
    are settled and nothing is uncaught or logged. *)
Theorem missing_artifact_falls_back_to_factory (h : host) (keyBase : string)
    (c : gmap string value) (parg : option string) (resp : response) (r : value)
    (Hclient : process_client h = true)
    (Hstatic : process_static h = true)
    (Hblank : truthy (ssrRef h VNull (key keyBase (default EmptyString parg))) = false)
    (Hmiss : c !! key keyBase (default EmptyString parg) = None)
    (Hfailed : fetch_failed resp = true) :
  let p := default EmptyString parg in
  let k := key keyBase p in
  let st := run h keyBase (useStatic h keyBase c parg)
                [FetchSettles 0 resp; FactorySettles 1 (Resolved r)] in
  result st = r
  ∧ staticCache st = <[k := r]> c
  ∧ trace st = [CallFetch (joinURL h (publicPath h) (k +:+ ".json")); CallFactory p k]
  ∧ pending st = [None; None]
  ∧ uncaught st = [] ∧ console st = [].
Proof.
  cbv zeta.
  rewrite (useStatic_miss h keyBase c parg Hblank Hmiss), Hclient.
  rewrite watch_cb_miss_static by easy.
  rewrite run_cons.
  rewrite (step_fetch_failed h keyBase _ 0 (key keyBase (default EmptyString parg)) resp)
    by (reflexivity || assumption).
  rewrite run_cons.
  rewrite (step_factory_resolved h keyBase _ 1 (default EmptyString parg)
             (key keyBase (default EmptyString parg)) r) by reflexivity.
  rewrite run_nil.
  repeat split.
Qed.

(** The artifact of [post-42] answers 404; the factory gives [{title: "A"}]. *)
Lemma missing_artifact_falls_back_to_factory_witness :
  let h := demo_host true true in
  let st := run h "post" (useStatic h "post" ∅ (Some "42"))
                [FetchSettles 0 NotOk; FactorySettles 1 (Resolved (title "A"))] in
  result st = title "A"
  ∧ trace st = [CallFetch "/_nuxt/post-42.json"; CallFactory "42" "post-42"].
Proof.
  intros h st.
  assert (Hmiss : (∅ : gmap string value) !! key "post" (default EmptyString (Some "42"))
                  = None) by reflexivity.
  destruct (missing_artifact_falls_back_to_factory h "post" ∅ (Some "42") NotOk (title "A")
              eq_refl eq_refl eq_refl Hmiss eq_refl) as (Hr & _ & Ht & _).
  split; [exact Hr | exact Ht].
Defined.

(** Resolve the watch handler in the goal, the lookup being settled by [tac]. *)
Ltac handler_misses_dynamic Hdyn tac :=
  match goal with
  | |- context [watch_cb ?h ?kb ?k ?st] =>
      let H := fresh in
      assert (H : staticCache st !! k = None) by tac;
      rewrite (watch_cb_miss_dynamic h kb st k H Hdyn); clear H
  end.

Ltac handler_hits v tac :=
  match goal with
  | |- context [watch_cb ?h ?kb ?k ?st] =>
      let H := fresh in
      assert (H : staticCache st !! k = Some v) by tac;
      rewrite (watch_cb_hit h kb st k v H); clear H
  end.

(** Put the state of the run in the goal in explicit form. *)
Ltac explicit_state :=
  match goal with
  | |- context [run _ _ ?st _] =>
      let s := eval simpl in st in change st with s
  end.

(** X12.  Going back is served from the cache.  A client outside a static
    build resolves parameter [pa], moves to [pb] and resolves it, then moves
    back to [pa]: the handle shows the value first resolved for [pa], and
    the factory has been called twice in all, once for each parameter. *)
Theorem revisit_is_served_from_cache (h : host) (keyBase : string)
    (c : gmap string value) (pa pb : string) (ra rb : value)
    (Hclient : process_client h = true)
    (Hdynamic : process_static h = false)
    (Hblank : truthy (ssrRef h VNull (key keyBase pa)) = false)
    (Hne : pa ≠ pb)
    (Hmiss_a : c !! key keyBase pa = None)
    (Hmiss_b : c !! key keyBase pb = None) :
  let st := run h keyBase (useStatic h keyBase c (Some pa))
                [FactorySettles 0 (Resolved ra); SetParam pb; Flush;
                 FactorySettles 1 (Resolved rb); SetParam pa; Flush] in
  result st = ra
  ∧ trace st = [CallFactory pa (key keyBase pa); CallFactory pb (key keyBase pb)]
  ∧ staticCache st = <[key keyBase pb := rb]> (<[key keyBase pa := ra]> c).
Proof.
  cbv zeta.
  assert (Hab : key keyBase pa ≠ key keyBase pb) by (now apply key_neq).
  assert (Hba : key keyBase pb ≠ key keyBase pa) by congruence.
  rewrite (useStatic_miss h keyBase c (Some pa) Hblank Hmiss_a), Hclient.
  rewrite watch_cb_miss_dynamic by easy.
  unfold onFailure, key_value. explicit_state.
  rewrite run_cons.
  rewrite (step_factory_resolved h keyBase _ 0 pa (key keyBase pa) ra) by reflexivity.
  unfold onFailure_then, key_value. explicit_state.
  rewrite run_cons.
  change (step h keyBase ?s (SetParam pb)) with (set_param pb s).
  explicit_state.
  rewrite run_cons.
  rewrite (step_flush_new h keyBase _ (key keyBase pa)) by (reflexivity || exact Hab).
  handler_misses_dynamic Hdynamic
    ltac:(unfold key_value; simpl; rewrite lookup_insert_ne by exact Hab; exact Hmiss_b).
  unfold onFailure, key_value. explicit_state.
  rewrite run_cons.
  rewrite (step_factory_resolved h keyBase _ 1 pb (key keyBase pb) rb) by reflexivity.
  unfold onFailure_then, key_value. explicit_state.
  rewrite run_cons.
  change (step h keyBase ?s (SetParam pa)) with (set_param pa s).
  explicit_state.
  rewrite run_cons.
  rewrite (step_flush_new h keyBase _ (key keyBase pb)) by (reflexivity || exact Hba).
  handler_hits ra
    ltac:(unfold key_value; simpl; rewrite lookup_insert_ne by exact Hba;
          apply lookup_insert_eq).
  rewrite run_nil. repeat split.
Qed.

(** From post [1] to post [2] and back. *)
Lemma revisit_is_served_from_cache_witness :
  let h := demo_host true false in
  let st := run h "post" (useStatic h "post" ∅ (Some "1"))
                [FactorySettles 0 (Resolved (title "A")); SetParam "2"; Flush;
                 FactorySettles 1 (Resolved (title "B")); SetParam "1"; Flush] in
  "1" ≠ "2"
  ∧ result st = title "A"
  ∧ trace st = [CallFactory "1" "post-1"; CallFactory "2" "post-2"].
Proof.
  intros h st.
  assert (Hne : "1" ≠ "2") by discriminate.
  assert (Hm1 : (∅ : gmap string value) !! key "post" "1" = None) by reflexivity.
  assert (Hm2 : (∅ : gmap string value) !! key "post" "2" = None) by reflexivity.
  split; [exact Hne|].
  destruct (revisit_is_served_from_cache h "post" ∅ "1" "2" (title "A") (title "B")
              eq_refl eq_refl eq_refl Hne Hm1 Hm2) as (Hr & Ht & _).
  split; [exact Hr | exact Ht].
Defined.

(** X13.  A resolution in flight is not shared.  A client outside a static
    build starts resolving [pa], moves to [pb] and back to [pa] before
    anything has settled: the factory is called a second time for [pa], and
    three promises are pending. *)
Theorem in_flight_resolution_is_repeated (h : host) (keyBase : string)
    (c : gmap string value) (pa pb : string)
    (Hclient : process_client h = true)
    (Hdynamic : process_static h = false)
    (Hblank : truthy (ssrRef h VNull (key keyBase pa)) = false)
    (Hne : pa ≠ pb)
    (Hmiss_a : c !! key keyBase pa = None)
    (Hmiss_b : c !! key keyBase pb = None) :
  let st := run h keyBase (useStatic h keyBase c (Some pa))
                [SetParam pb; Flush; SetParam pa; Flush] in
  trace st = [CallFactory pa (key keyBase pa); CallFactory pb (key keyBase pb);
              CallFactory pa (key keyBase pa)]
  ∧ pending st = [Some (TFactory pa (key keyBase pa));
                  Some (TFactory pb (key keyBase pb));
                  Some (TFactory pa (key keyBase pa))]
  ∧ staticCache st = c.
Proof.
  cbv zeta.
  assert (Hab : key keyBase pa ≠ key keyBase pb) by (now apply key_neq).
  assert (Hba : key keyBase pb ≠ key keyBase pa) by congruence.
  rewrite (useStatic_miss h keyBase c (Some pa) Hblank Hmiss_a), Hclient.
  rewrite watch_cb_miss_dynamic by easy.
  unfold onFailure, key_value. explicit_state.
  rewrite run_cons.
  change (step h keyBase ?s (SetParam pb)) with (set_param pb s).
  explicit_state.
  rewrite run_cons.
  rewrite (step_flush_new h keyBase _ (key keyBase pa)) by (reflexivity || exact Hab).
  handler_misses_dynamic Hdynamic ltac:(exact Hmiss_b).
  unfold onFailure, key_value. explicit_state.
  rewrite run_cons.
  change (step h keyBase ?s (SetParam pa)) with (set_param pa s).
  explicit_state.
  rewrite run_cons.
  rewrite (step_flush_new h keyBase _ (key keyBase pb)) by (reflexivity || exact Hba).
  handler_misses_dynamic Hdynamic ltac:(exact Hmiss_a).
  rewrite run_nil. repeat split.
Qed.

(** Post [1], post [2], post [1] again, nothing settled yet. *)
Lemma in_flight_resolution_is_repeated_witness :
  let h := demo_host true false in
  let st := run h "post" (useStatic h "post" ∅ (Some "1"))
                [SetParam "2"; Flush; SetParam "1"; Flush] in
  "1" ≠ "2"
  ∧ trace st = [CallFactory "1" "post-1"; CallFactory "2" "post-2";
                CallFactory "1" "post-1"].
Proof.
  intros h st.
  assert (Hne : "1" ≠ "2") by discriminate.
  assert (Hm1 : (∅ : gmap string value) !! key "post" "1" = None) by reflexivity.
  assert (Hm2 : (∅ : gmap string value) !! key "post" "2" = None) by reflexivity.
  split; [exact Hne|].
  exact (proj1 (in_flight_resolution_is_repeated h "post" ∅ "1" "2"
                  eq_refl eq_refl eq_refl Hne Hm1 Hm2)).
Defined.

(** X14.  A late artifact replaces what the handle shows.  A static client
    starts fetching the artifact of [p1], then moves to [p2], whose value
    [v2] is cached and shown.  When the fetch for [p1] then ends ok with
    [json], the cache entry of [p1] gets [json] and the entry of [p2] keeps
    [v2], but the handle now holds [json] although the current key is still
    that of [p2]. *)
Theorem late_artifact_replaces_shown_value (h : host) (keyBase : string)
    (c : gmap string value) (p1 p2 : string) (v2 json : value)
    (Hclient : process_client h = true)
    (Hstatic : process_static h = true)
    (Hblank : truthy (ssrRef h VNull (key keyBase p1)) = false)
    (Hne : p1 ≠ p2)
    (Hmiss : c !! key keyBase p1 = None)
    (Hcached : c !! key keyBase p2 = Some v2) :
  let moved := run h keyBase (useStatic h keyBase c (Some p1)) [SetParam p2; Flush] in
  let st := step h keyBase moved (FetchSettles 0 (OkJson json)) in
  result moved = v2
  ∧ result st = json
  ∧ key_value keyBase st = key keyBase p2
  ∧ staticCache st !! key keyBase p2 = Some v2
  ∧ staticCache st !! key keyBase p1 = Some json
  ∧ trace st = [CallFetch (joinURL h (publicPath h) (key keyBase p1 +:+ ".json"))].
Proof.
  cbv zeta.
  assert (H12 : key keyBase p1 ≠ key keyBase p2) by (now apply key_neq).
  assert (Hmoved :
    run h keyBase (useStatic h keyBase c (Some p1)) [SetParam p2; Flush]
    = State c v2 p2 (Some (key keyBase p2)) false [Some (TFetch (key keyBase p1))]
        [CallFetch (joinURL h (publicPath h) (key keyBase p1 +:+ ".json"))] ∅ [] []).
  { rewrite (useStatic_miss h keyBase c (Some p1) Hblank Hmiss), Hclient.
    rewrite watch_cb_miss_static by easy.
    explicit_state.
    rewrite run_cons.
    change (step h keyBase ?s (SetParam p2)) with (set_param p2 s).
    explicit_state.
    rewrite run_cons.
    rewrite (step_flush_new h keyBase _ (key keyBase p1)) by (reflexivity || exact H12).
    handler_hits v2 ltac:(exact Hcached).
    rewrite run_nil. reflexivity. }
  rewrite Hmoved.
  rewrite (step_fetch_ok h keyBase _ 0 (key keyBase p1) json) by reflexivity.
  split; [reflexivity|]. split; [reflexivity|]. split; [reflexivity|].
  split; [simpl; now rewrite lookup_insert_ne|].
  split; [simpl; apply lookup_insert_eq | reflexivity].
Qed.

(** Post [2] is cached and shown; then the artifact of post [1] arrives. *)
Lemma late_artifact_replaces_shown_value_witness :
  let h := demo_host true true in
  let c : gmap string value := {[ "post-2" := title "B" ]} in
  let moved := run h "post" (useStatic h "post" c (Some "1")) [SetParam "2"; Flush] in
  let st := step h "post" moved (FetchSettles 0 (OkJson (title "A"))) in
  "1" ≠ "2"
  ∧ result moved = title "B"
  ∧ result st = title "A"
  ∧ key_value "post" st = "post-2".
Proof.
  intros h c moved st.
  assert (Hne : "1" ≠ "2") by discriminate.
  assert (Hm : c !! key "post" "1" = None) by reflexivity.
  assert (Hc : c !! key "post" "2" = Some (title "B")) by reflexivity.
  split; [exact Hne|].
  destruct (late_artifact_replaces_shown_value h "post" c "1" "2" (title "B") (title "A")
              eq_refl eq_refl eq_refl Hne Hm Hc) as (H1 & H2 & H3 & _).
  split; [exact H1|]. split; [exact H2 | exact H3].
Defined.

(** X15.  Where the artifact is fetched from.  A static client that misses
    fetches below the configured CDN address when there is one and it is not
    the empty string, and below the build's public path when the CDN address
    is undefined or empty. *)
Theorem artifact_is_fetched_below_cdn_or_public_path (h : host) (keyBase : string)
    (c : gmap string value) (parg : option string)
    (Hclient : process_client h = true)
    (Hstatic : process_static h = true)
    (Hblank : truthy (ssrRef h VNull (key keyBase (default EmptyString parg))) = false)
    (Hmiss : c !! key keyBase (default EmptyString parg) = None) :
  let file := key keyBase (default EmptyString parg) +:+ ".json" in
  (∀ u, cdnURL h = Some u → u ≠ EmptyString →
        trace (useStatic h keyBase c parg) = [CallFetch (joinURL h u file)])
  ∧ (cdnURL h = None ∨ cdnURL h = Some EmptyString →
        trace (useStatic h keyBase c parg)
        = [CallFetch (joinURL h (options_publicPath h) file)]).
Proof.
  cbv zeta.
  rewrite (useStatic_miss h keyBase c parg Hblank Hmiss), Hclient.
  rewrite watch_cb_miss_static by easy.
  unfold publicPath. split.
  - intros u Hu Hne. rewrite Hu. destruct u; [now destruct Hne | reflexivity].
  - intros [Hu | Hu]; now rewrite Hu.
Qed.

(** With the CDN address [https://cdn.example] the artifact of [post-42]
    is fetched there. *)
Lemma artifact_is_fetched_below_cdn_or_public_path_witness :
  let h := Host true true (Some "https://cdn.example") "/_nuxt" "dist/static"
                demo_join demo_join demo_stringify demo_fs_ok demo_ssrRef_blank in
  trace (useStatic h "post" ∅ (Some "42"))
  = [CallFetch "https://cdn.example/post-42.json"].
Proof.
  intros h.
  assert (Hm : (∅ : gmap string value) !! key "post" (default EmptyString (Some "42"))
               = None) by reflexivity.
  destruct (artifact_is_fetched_below_cdn_or_public_path h "post" ∅ (Some "42")
              eq_refl eq_refl eq_refl Hm) as (Hcdn & _).
  apply (Hcdn "https://cdn.example"); [reflexivity | discriminate].
Defined.
